(** * AyurSutra: the appointment scheduling engine and the wallet

    A shallow embedding of the Express route handlers of the clinic
    back end (the /api/appointments router and the /api/wallet router)
    together with the properties of the scheduling engine: the booking-time
    conflict guard, the availability grid, the life cycle operations
    (update, status change, cancellation), the reminder derivation,
    the confirmation notification and the wallet deduction.

    Conventions of the embedding.
    - A Mongo collection is a finite map from document ids to documents.
    - JavaScript numbers that hold instants, hours and minutes are exact
      integers; [None] stands for NaN (an Invalid Date).  A wallet
      balance and the amount of a deduction are IEEE-754 binary64 numbers,
      subtracted and compared as such; the cost of an appointment, which
      is only checked against 0 and stored, is an exact rational.
    - A request is modelled after body parsing: ids are ids, instants are
      instants; what the express-validator chains still have to check
      (emptiness, ranges, enumerations) is checked by the handlers.
    - Every awaited call on the store or on the notification service may
      throw; which ones do is read from the request context. *)

From Stdlib Require Import ZArith QArith Qcanon String Ascii DecimalString SpecFloat.
From stdpp Require Import base option numbers list strings gmap fin_maps sorting.

Local Open Scope string_scope.
Local Open Scope list_scope.
Local Open Scope Z_scope.

(** ** JavaScript primitives used by the handlers *)

Module Js.

(** A number that may be NaN. *)
Definition num := option Z.

Definition isWhiteSpace (c : ascii) : bool :=
  let n := nat_of_ascii c in
  ((n =? 32) || (n =? 9) || (n =? 10) || (n =? 11) || (n =? 12) || (n =? 13))%nat.

Fixpoint trimStart (s : string) : string :=
  match s with
  | String c s' => if isWhiteSpace c then trimStart s' else s
  | EmptyString => s
  end.

(** Value of a character as a digit in some radix up to 36. *)
Definition digitValue (c : ascii) : option Z :=
  let n := Z.of_nat (nat_of_ascii c) in
  if (48 <=? n) && (n <=? 57) then Some (n - 48)
  else if (97 <=? n) && (n <=? 122) then Some (n - 87)
  else if (65 <=? n) && (n <=? 90) then Some (n - 55)
  else None.

Definition digitIn (R : Z) (c : ascii) : option Z :=
  match digitValue c with
  | Some d => if d <? R then Some d else None
  | None => None
  end.

(** The longest prefix of radix-[R] digits; [acc] is [None] as long as
    no digit has been read. *)
Fixpoint parseDigits (R : Z) (acc : option Z) (s : string) : option Z :=
  match s with
  | String c s' =>
      match digitIn R c with
      | Some d => parseDigits R (Some (default 0 acc * R + d)) s'
      | None => acc
      end
  | EmptyString => acc
  end.

(** [parseInt(s)] with no radix argument: leading white space, an
    optional sign, an optional [0x] prefix, then digits. *)
Definition parseInt (s : string) : num :=
  let s1 := trimStart s in
  let '(sign, s2) :=
    match s1 with
    | String "-" r => (-1, r)
    | String "+" r => (1, r)
    | _ => (1, s1)
    end in
  let '(R, s3) :=
    match s2 with
    | String "0" (String "x" r) => (16, r)
    | String "0" (String "X" r) => (16, r)
    | _ => (10, s2)
    end in
  (fun n => sign * n) <$> parseDigits R None s3.

(** [parseInt(undefined)] is NaN. *)
Definition parseIntU (o : option string) : num := o ≫= parseInt.

(** [s.split(sep)] for a one-character separator. *)
Fixpoint split (sep : ascii) (s : string) : list string :=
  match s with
  | EmptyString => [EmptyString]
  | String c s' =>
      if Ascii.eqb c sep then EmptyString :: split sep s'
      else match split sep s' with
           | p :: ps => String c p :: ps
           | [] => [String c EmptyString]
           end
  end.

Fixpoint repeatChar (n : nat) (c : ascii) : string :=
  match n with
  | O => EmptyString
  | S n' => String c (repeatChar n' c)
  end.

(** [s.padStart(n, c)] for a one-character filler. *)
Definition padStart (n : nat) (c : ascii) (s : string) : string :=
  repeatChar (n - String.length s) c +:+ s.

(** [n.toString()] for an integer. *)
Definition toString (n : Z) : string := NilZero.string_of_int (Z.to_int n).

(** [for (i = lo; i < hi; i += step)]: the values [i] takes.  The fuel
    bounds the number of iterations; [hi - lo] is enough for a positive
    step. *)
Fixpoint forRange (fuel : nat) (i hi step : Z) : list Z :=
  match fuel with
  | O => []
  | S fuel' => if i <? hi then i :: forRange fuel' (i + step) hi step else []
  end.

Definition forLoop (lo hi step : Z) : list Z :=
  forRange (Z.to_nat (hi - lo)) lo hi step.

(** *** Dates *)

Definition msPerDay : Z := 86400000.
Definition msPerHour : Z := 3600000.
Definition msPerMinute : Z := 60000.
Definition msPerSecond : Z := 1000.

(** A [Date] object: its time value, NaN for an Invalid Date. *)
Definition Date := num.

Definition TimeClip (t : Z) : Date :=
  if Z.abs t <=? 8640000000000000 then Some t else None.

Section LocalTime.
(** Offset of local time from UTC in milliseconds, taken as constant. *)
Variable LocalTZA : Z.

Definition Day (t : Z) : Z := t / msPerDay.

Definition MakeTime (h m s ms : num) : num :=
    h ← h; m ← m; s ← s; ms ← ms;
    Some (h * msPerHour + m * msPerMinute + s * msPerSecond + ms).

(** [d.setHours(h, m, s, ms)]: the new time value of [d]. *)
Definition setHours (d : Date) (h m s ms : num) : Date :=
    t ← d;
    time ← MakeTime h m s ms;
    TimeClip (Day (t + LocalTZA) * msPerDay + time - LocalTZA).
End LocalTime.

(** [new Date(d.getTime() + k)]. *)
Definition plus (d : Date) (k : Z) : Date := t ← d; TimeClip (t + k).

(** [a < b] on two dates: false as soon as one of them is invalid. *)
Definition lt (a b : Date) : bool :=
  match a, b with
  | Some x, Some y => bool_decide (x < y)
  | _, _ => false
  end.

Definition gt (a b : Date) : bool := lt b a.

(** *** Numbers

    A Number is an IEEE-754 binary64 value: [spec_float] at precision 53
    and maximal exponent 1024, with the arithmetic of the standard
    library's specification of floating-point numbers (round to nearest,
    ties to even). *)

Abbreviation Number := spec_float (only parsing).

(** [m × 2^e], rounded to a Number. *)
Definition scaled (m e : Z) : Number := binary_normalize 53 1024 m e false.

(** The Number of an integer literal. *)
Definition ofZ (z : Z) : Number := scaled z 0.

(** [ToBoolean]: NaN, +0 and -0 are falsy. *)
Definition ToBoolean (x : Number) : bool :=
  match x with
  | S754_zero _ | S754_nan => false
  | _ => true
  end.

Definition isFinite (x : Number) : bool :=
  match x with
  | S754_zero _ | S754_finite _ _ _ => true
  | _ => false
  end.

(** [x < y] and [x - y] on Numbers. *)
Definition less (x y : Number) : bool := SFltb x y.

Definition minus (x y : Number) : Number := SFsub 53 1024 x y.

End Js.


(** ** Documents *)

(** Document ids ([ObjectId]s). *)
Abbreviation Id := nat (only parsing).

(** One entry of [appointment.reminders], as the creation handler writes it. *)
Record Reminder := {
  type : string;
  scheduledTime : Z
}.

Record Appointment := {
  patient : Id;
  practitioner : Id;
  therapyType : string;
  scheduledDate : Z;
  startTime : string;
  endTime : string;
  duration : Z;
  cost : Qc;
  notes : option string;
  preSessionInstructions : option string;
  postSessionInstructions : option string;
  status : string;
  cancellationReason : option string;
  cancelledBy : option string;
  cancelledAt : option Z;
  reminders : list Reminder
}.

Record Patient := { userId : Id }.

Record Practitioner := { practitionerUserId : Id }.

(** [walletBalance] is a Number, or undefined. *)
Record User := { walletBalance : option Js.Number }.

Inductive NotificationData :=
| ConfirmationData (appointmentId : Id) (therapy : string) (date : Z)
| StatusData (appointmentId : Id) (newStatus : string).

Record Notification := {
  recipient : Id;
  n_type : string;
  title : string;
  n_message : string;
  priority : string;
  channels : list string;
  n_data : NotificationData
}.

(** The collections of the database. *)
Record Db := {
  patients : gmap Id Patient;
  practitioners : gmap Id Practitioner;
  appointments : gmap Id Appointment;
  notifications : gmap Id Notification;
  users : gmap Id User
}.

Definition withAppointments (f : gmap Id Appointment → gmap Id Appointment) (db : Db) : Db :=
  {| patients := patients db; practitioners := practitioners db;
     appointments := f (appointments db);
     notifications := notifications db; users := users db |}.

Definition withNotifications (f : gmap Id Notification → gmap Id Notification) (db : Db) : Db :=
  {| patients := patients db; practitioners := practitioners db;
     appointments := appointments db;
     notifications := f (notifications db); users := users db |}.

Definition withUsers (f : gmap Id User → gmap Id User) (db : Db) : Db :=
  {| patients := patients db; practitioners := practitioners db;
     appointments := appointments db;
     notifications := notifications db; users := f (users db) |}.

(** [Model.find(filter)]: the matching documents with their ids. *)
Definition find {A} (P : A → Prop) `{!∀ x, Decision (P x)} (m : gmap Id A) : list (Id * A) :=
  filter (λ kv, P kv.2) (map_to_list m).

(** [Model.findOne(filter)]. *)
Definition findOne {A} (P : A → Prop) `{!∀ x, Decision (P x)} (m : gmap Id A) : option (Id * A) :=
  head (find P m).

(** The id a new document of a collection receives. *)
Definition newId {A} (m : gmap Id A) : Id := fresh (dom m).

(** ** Requests and responses *)

(** One slot of the availability answer. *)
Record Slot := {
  time : string;
  date : option string;
  available : bool
}.

Inductive Payload :=
| NoData
| AppointmentData (id : Id) (a : Appointment)
| SlotsData (slots : list Slot)
| WalletData (newBalance amountDeducted : Js.Number) (reason : string)
| ValidationErrors (fields : list string)
| ErrorMessage (e : string).

(** [res.status(code).json({ success, message, data | errors | error })]. *)
Record Response := {
  code : Z;
  success : bool;
  message : option string;
  data : Payload
}.

(** The awaited calls that can throw. *)
Inductive Op :=
| PatientFindById | PatientFindOne | PractitionerFindById
| AppointmentFindById | AppointmentFindOne | AppointmentFind
| AppointmentSave | AppointmentPopulate
| NotificationSave | SendAppointmentConfirmation
| UserFindById | UserSave.

(** What a handler sees of its request besides the body: the user the
    [auth] middleware attached, the clock, and which awaited calls fail. *)
Record Ctx := {
  user : Id;
  role : string;
  now : Z;
  fails : Op → bool
}.

Definition noFaults (c : Ctx) : Prop := ∀ op, fails c op = false.

(** ** The handler monad: a store, early replies and exceptions *)

Inductive Outcome (A : Type) : Type :=
| Val (a : A)
| Reply (r : Response)
| Throw (e : string).
Arguments Val {A} a.
Arguments Reply {A} r.
Arguments Throw {A} e.

Definition Handler (A : Type) : Type := Db → Outcome A * Db.

#[global] Instance Handler_ret : MRet Handler := λ A a db, (Val a, db).

#[global] Instance Handler_bind : MBind Handler := λ A B f m db,
  match m db with
  | (Val a, db') => f a db'
  | (Reply r, db') => (Reply r, db')
  | (Throw e, db') => (Throw e, db')
  end.

(** [return res.status(..).json(..)]. *)
Definition reply {A} (r : Response) : Handler A := λ db, (Reply r, db).

Definition throw {A} (e : string) : Handler A := λ db, (Throw e, db).

Definition gets {A} (f : Db → A) : Handler A := λ db, (Val (f db), db).

Definition modify (f : Db → Db) : Handler unit := λ db, (Val tt, f db).

(** [await op]: the call throws when the context says so, before it has
    had any effect. *)
Definition await {A} (c : Ctx) (op : Op) (m : Handler A) : Handler A :=
  if fails c op then throw "operation failed" else m.

(** [try { m } catch (error) { h }]; a [return] inside [m] leaves the
    handler all the same. *)
Definition tryCatch {A} (m : Handler A) (h : string → Handler A) : Handler A := λ db,
  match m db with
  | (Throw e, db') => h e db'
  | r => r
  end.

(** [for (x of l) s = body(x, s)]. *)
Fixpoint forEach {A S} (l : list A) (body : A → S → Handler S) (s : S) : Handler S :=
  match l with
  | [] => mret s
  | x :: l' => s' ← body x s; forEach l' body s'
  end.

(** A route: the handler body inside [try], the 500 answer in [catch]. *)
Definition route (body : Handler Response) (onError : string → Response) (db : Db) : Response * Db :=
  match body db with
  | (Val r, db') => (r, db')
  | (Reply r, db') => (r, db')
  | (Throw e, db') => (onError e, db')
  end.

Definition serverError (msg e : string) : Response :=
  {| code := 500; success := false; message := Some msg; data := ErrorMessage e |}.

Definition failure (st : Z) (msg : string) : Response :=
  {| code := st; success := false; message := Some msg; data := NoData |}.

Definition validationFailure (errors : list string) : Response :=
  {| code := 400; success := false; message := Some "Validation errors";
     data := ValidationErrors errors |}.

(** ** Request bodies *)

Module CreateBody.
Record t := {
  patientId : Id;
  practitionerId : Id;
  therapyType : string;
  scheduledDate : Z;
  startTime : string;
  endTime : string;
  duration : Z;
  cost : Qc;
  notes : option string;
  preSessionInstructions : option string;
  postSessionInstructions : option string
}.
End CreateBody.

(** A field that is [None] is [undefined] in [req.body]. *)
Module UpdateBody.
Record t := {
  scheduledDate : option Z;
  startTime : option string;
  endTime : option string;
  duration : option Z;
  notes : option string;
  preSessionInstructions : option string;
  postSessionInstructions : option string
}.
End UpdateBody.

Module StatusBody.
Record t := {
  status : string;
  cancellationReason : option string
}.
End StatusBody.

Module AvailabilityQuery.
(** [req.query.date] after [new Date(date)]. *)
Inductive dateParam :=
| Missing
| Invalid
| Instant (t : Z).
Record t := {
  practitionerId : option Id;
  date : dateParam
}.
End AvailabilityQuery.

(** The amount of the request is a JSON number. *)
Module DeductBody.
Record t := {
  amount : Js.Number;
  reason : string
}.
End DeductBody.

(** ** The /api/appointments router *)

Definition therapyTypes : list string :=
  ["abhyanga"; "shirodhara"; "basti"; "nasya"; "virechana"; "rakta-mokshana"; "consultation"].

Definition statusValues : list string :=
  ["scheduled"; "confirmed"; "in-progress"; "completed"; "cancelled"; "no-show"].

(** [status: { $in: ['scheduled', 'confirmed'] }]. *)
Definition activeStatuses : list string := ["scheduled"; "confirmed"].

(** Modelled from the spec: the schema of models/Appointment.js is not part
    of the sources; a new appointment that is given no status is persisted
    "with status scheduled". *)
Definition defaultStatus : string := "scheduled".

Definition check (ok : bool) (field : string) : list string :=
  if ok then [] else [field].

Definition notEmpty (s : string) : bool := negb (String.eqb s "").

(** The validation chain of POST /appointments. *)
Definition validateCreate (b : CreateBody.t) : list string :=
  check (bool_decide (CreateBody.therapyType b ∈ therapyTypes)) "therapyType"
  ++ check (notEmpty (CreateBody.startTime b)) "startTime"
  ++ check (notEmpty (CreateBody.endTime b)) "endTime"
  ++ check (bool_decide (15 ≤ CreateBody.duration b)) "duration"
  ++ check (bool_decide (0 ≤ CreateBody.cost b)%Qc) "cost".

(** The filter of the conflict query of POST /appointments. *)
Definition slotTaken (practitionerId : Id) (date : Z) (start : string) (a : Appointment) : Prop :=
  practitioner a = practitionerId ∧ scheduledDate a = date ∧ startTime a = start
  ∧ status a ∈ activeStatuses.

#[global] Instance slotTaken_dec p d s a : Decision (slotTaken p d s a).
Proof. unfold slotTaken. apply _. Defined.

(** The [reminders] array of a new appointment. *)
Definition defaultReminders (scheduledDate : Z) : list Reminder :=
  [ {| type := "email"; scheduledTime := scheduledDate - 24 * 60 * 60 * 1000 |};
    {| type := "sms"; scheduledTime := scheduledDate - 2 * 60 * 60 * 1000 |} ].

Definition newAppointment (b : CreateBody.t) : Appointment :=
  {| patient := CreateBody.patientId b;
     practitioner := CreateBody.practitionerId b;
     therapyType := CreateBody.therapyType b;
     scheduledDate := CreateBody.scheduledDate b;
     startTime := CreateBody.startTime b;
     endTime := CreateBody.endTime b;
     duration := CreateBody.duration b;
     cost := CreateBody.cost b;
     notes := CreateBody.notes b;
     preSessionInstructions := CreateBody.preSessionInstructions b;
     postSessionInstructions := CreateBody.postSessionInstructions b;
     status := defaultStatus;
     cancellationReason := None;
     cancelledBy := None;
     cancelledAt := None;
     reminders := defaultReminders (CreateBody.scheduledDate b) |}.

(** [await document.save()] of a new document. *)
Definition insertAppointment (a : Appointment) : Handler Id := λ db,
  let id := newId (appointments db) in
  (Val id, withAppointments <[id := a]> db).

Definition insertNotification (n : Notification) : Handler Id := λ db,
  let id := newId (notifications db) in
  (Val id, withNotifications <[id := n]> db).

(** [await appointment.save()] of a document that was fetched by id. *)
Definition saveAppointment (id : Id) (a : Appointment) : Handler unit :=
  modify (withAppointments <[id := a]>).

Section Routes.

(** The environment of the server process: the offset of its local time
    zone, and the two date formatters of the JavaScript runtime. *)
Variable LocalTZA : Z.
Variable toLocaleDateString : Z → string.
Variable toISOString : Z → string.

(** *** POST /appointments *)

Definition confirmationNotification (b : CreateBody.t) (patient : Patient) (appointmentId : Id)
  : Notification :=
  {| recipient := userId patient;
     n_type := "appointment_confirmation";
     title := "Appointment Confirmed";
     n_message := "Your " +:+ CreateBody.therapyType b
                  +:+ " appointment has been scheduled for "
                  +:+ toLocaleDateString (CreateBody.scheduledDate b)
                  +:+ " at " +:+ CreateBody.startTime b;
     priority := "high";
     channels := ["email"; "in-app"];
     n_data := ConfirmationData appointmentId (CreateBody.therapyType b)
                                (CreateBody.scheduledDate b) |}.

Definition createAppointmentBody (c : Ctx) (b : CreateBody.t) : Handler Response :=
  let errors := validateCreate b in
  if negb (bool_decide (errors = [])) then reply (validationFailure errors) else
  (* Check if patient exists *)
  patient ← await c PatientFindById (gets (λ db, patients db !! CreateBody.patientId b));
  match patient with
  | None => reply (failure 404 "Patient not found")
  | Some patient =>
  (* Check if practitioner exists *)
  practitioner ← await c PractitionerFindById
                   (gets (λ db, practitioners db !! CreateBody.practitionerId b));
  match practitioner with
  | None => reply (failure 404 "Practitioner not found")
  | Some _ =>
  (* Check for scheduling conflicts *)
  conflict ← await c AppointmentFindOne
               (gets (λ db, findOne (slotTaken (CreateBody.practitionerId b)
                                               (CreateBody.scheduledDate b)
                                               (CreateBody.startTime b))
                                    (appointments db)));
  match conflict with
  | Some _ => reply (failure 400 "Time slot is already booked")
  | None =>
  (* Create appointment *)
  let appointment := newAppointment b in
  id ← await c AppointmentSave (insertAppointment appointment);
  (* Create notification *)
  let notification := confirmationNotification b patient id in
  _ ← await c NotificationSave (insertNotification notification);
  (* Send email and SMS notifications: the service is an awaited call that
     may throw (it does when it reads the practitioner's name off an
     appointment whose references are not populated yet); the handler
     logs the error and goes on *)
  _ ← tryCatch (await c SendAppointmentConfirmation (mret tt)) (λ _, mret tt);
  (* Populate appointment data *)
  _ ← await c AppointmentPopulate (mret tt);
  mret {| code := 201; success := true;
          message := Some "Appointment created successfully";
          data := AppointmentData id appointment |}
  end end end.

Definition createAppointment (c : Ctx) (b : CreateBody.t) : Db → Response * Db :=
  route (createAppointmentBody c b) (serverError "Server error creating appointment").

(** *** The [// Check permissions] block of PUT /:id and DELETE /:id:
    a patient may only touch an appointment of their own profile. *)
Definition accessDenied (c : Ctx) (a : Appointment) : Handler bool :=
  if bool_decide (role c = "patient") then
    profile ← await c PatientFindOne
                (gets (λ db, findOne (λ p, userId p = user c) (patients db)));
    match profile with
    | None => mret true
    | Some (pid, _) => mret (negb (bool_decide (patient a = pid)))
    end
  else mret false.

(** *** PUT /appointments/:id *)

(** [allowedFields.forEach(field => { if (req.body[field] !== undefined)
    appointment[field] = req.body[field] })]. *)
Definition applyUpdate (b : UpdateBody.t) (a : Appointment) : Appointment :=
  {| patient := patient a;
     practitioner := practitioner a;
     therapyType := therapyType a;
     scheduledDate := default (scheduledDate a) (UpdateBody.scheduledDate b);
     startTime := default (startTime a) (UpdateBody.startTime b);
     endTime := default (endTime a) (UpdateBody.endTime b);
     duration := default (duration a) (UpdateBody.duration b);
     cost := cost a;
     notes := match UpdateBody.notes b with Some s => Some s | None => notes a end;
     preSessionInstructions :=
       match UpdateBody.preSessionInstructions b with
       | Some s => Some s | None => preSessionInstructions a end;
     postSessionInstructions :=
       match UpdateBody.postSessionInstructions b with
       | Some s => Some s | None => postSessionInstructions a end;
     status := status a;
     cancellationReason := cancellationReason a;
     cancelledBy := cancelledBy a;
     cancelledAt := cancelledAt a;
     reminders := reminders a |}.

Definition updateAppointmentBody (c : Ctx) (id : Id) (b : UpdateBody.t) : Handler Response :=
  appointment ← await c AppointmentFindById (gets (λ db, appointments db !! id));
  match appointment with
  | None => reply (failure 404 "Appointment not found")
  | Some appointment =>
  denied ← accessDenied c appointment;
  if (denied : bool) then reply (failure 403 "Access denied") else
  let appointment := applyUpdate b appointment in
  _ ← await c AppointmentSave (saveAppointment id appointment);
  mret {| code := 200; success := true;
          message := Some "Appointment updated successfully";
          data := AppointmentData id appointment |}
  end.

Definition updateAppointment (c : Ctx) (id : Id) (b : UpdateBody.t) : Db → Response * Db :=
  route (updateAppointmentBody c id b) (serverError "Server error updating appointment").

(** *** PUT /appointments/:id/status *)

Definition validateStatus (b : StatusBody.t) : list string :=
  check (bool_decide (StatusBody.status b ∈ statusValues)) "status"
  ++ check (match StatusBody.cancellationReason b with
            | Some r => bool_decide (1 ≤ String.length r)%nat
            | None => true
            end) "cancellationReason".

(** [appointment.status = status; if (cancellationReason) { ... }]. *)
Definition applyStatus (c : Ctx) (b : StatusBody.t) (a : Appointment) : Appointment :=
  let truthy := match StatusBody.cancellationReason b with
                | Some r => notEmpty r
                | None => false
                end in
  {| patient := patient a;
     practitioner := practitioner a;
     therapyType := therapyType a;
     scheduledDate := scheduledDate a;
     startTime := startTime a;
     endTime := endTime a;
     duration := duration a;
     cost := cost a;
     notes := notes a;
     preSessionInstructions := preSessionInstructions a;
     postSessionInstructions := postSessionInstructions a;
     status := StatusBody.status b;
     cancellationReason :=
       if truthy then StatusBody.cancellationReason b else cancellationReason a;
     cancelledBy := if truthy then Some (role c) else cancelledBy a;
     cancelledAt := if truthy then Some (now c) else cancelledAt a;
     reminders := reminders a |}.

Definition statusNotification (b : StatusBody.t) (id : Id) (a : Appointment) : Notification :=
  {| recipient := patient a;
     n_type := "appointment_confirmation";
     title := "Appointment " +:+ StatusBody.status b;
     n_message := "Your appointment has been " +:+ StatusBody.status b;
     priority := "medium";
     channels := ["email"; "in-app"];
     n_data := StatusData id (StatusBody.status b) |}.

Definition updateStatusBody (c : Ctx) (id : Id) (b : StatusBody.t) : Handler Response :=
  let errors := validateStatus b in
  if negb (bool_decide (errors = [])) then reply (validationFailure errors) else
  appointment ← await c AppointmentFindById (gets (λ db, appointments db !! id));
  match appointment with
  | None => reply (failure 404 "Appointment not found")
  | Some appointment =>
  let appointment := applyStatus c b appointment in
  _ ← await c AppointmentSave (saveAppointment id appointment);
  (* Create notification for status change *)
  _ ← await c NotificationSave (insertNotification (statusNotification b id appointment));
  mret {| code := 200; success := true;
          message := Some "Appointment status updated successfully";
          data := AppointmentData id appointment |}
  end.

Definition updateStatus (c : Ctx) (id : Id) (b : StatusBody.t) : Db → Response * Db :=
  route (updateStatusBody c id b) (serverError "Server error updating appointment status").

(** *** DELETE /appointments/:id *)

Definition applyCancel (c : Ctx) (a : Appointment) : Appointment :=
  {| patient := patient a;
     practitioner := practitioner a;
     therapyType := therapyType a;
     scheduledDate := scheduledDate a;
     startTime := startTime a;
     endTime := endTime a;
     duration := duration a;
     cost := cost a;
     notes := notes a;
     preSessionInstructions := preSessionInstructions a;
     postSessionInstructions := postSessionInstructions a;
     status := "cancelled";
     cancellationReason := cancellationReason a;
     cancelledBy := Some (role c);
     cancelledAt := Some (now c);
     reminders := reminders a |}.

Definition cancelAppointmentBody (c : Ctx) (id : Id) : Handler Response :=
  appointment ← await c AppointmentFindById (gets (λ db, appointments db !! id));
  match appointment with
  | None => reply (failure 404 "Appointment not found")
  | Some appointment =>
  denied ← accessDenied c appointment;
  if (denied : bool) then reply (failure 403 "Access denied") else
  _ ← await c AppointmentSave (saveAppointment id (applyCancel c appointment));
  mret {| code := 200; success := true;
          message := Some "Appointment cancelled successfully";
          data := NoData |}
  end.

Definition cancelAppointment (c : Ctx) (id : Id) : Db → Response * Db :=
  route (cancelAppointmentBody c id) (serverError "Server error cancelling appointment").

(** *** GET /appointments/availability

    The handler is embedded as a function of its query; how the router
    dispatches a path to it is not part of the embedding. *)

Definition startHour : Z := 10.
Definition endHour : Z := 18.
Definition slotDuration : Z := 30.

(** The filter of the query for the existing appointments of the day. *)
Definition bookedOn (practitionerId : Id) (startOfDay endOfDay : Z) (a : Appointment) : Prop :=
  practitioner a = practitionerId
  ∧ (startOfDay ≤ scheduledDate a ∧ scheduledDate a ≤ endOfDay)
  ∧ status a ∈ activeStatuses.

#[global] Instance bookedOn_dec p lo hi a : Decision (bookedOn p lo hi a).
Proof. unfold bookedOn. apply _. Defined.

(** The query throws on a bound that is an Invalid Date. *)
Definition findBooked (practitionerId : Id) (startOfDay endOfDay : Js.Date)
  : Handler (list Appointment) :=
  match startOfDay, endOfDay with
  | Some lo, Some hi =>
      gets (λ db, (find (bookedOn practitionerId lo hi) (appointments db)).*2)
  | _, _ => throw "Cast to date failed"
  end.

(** [d = new Date(selectedDate); [h, m] = hhmm.split(':');
    d.setHours(parseInt(h), parseInt(m), 0, 0)]. *)
Definition timeOnDay (selectedDate : Js.Date) (hhmm : string) : Js.Date :=
  let parts := Js.split ":" hhmm in
  Js.setHours LocalTZA selectedDate
    (Js.parseIntU (parts !! 0%nat)) (Js.parseIntU (parts !! 1%nat)) (Some 0) (Some 0).

Definition slotStartOf (selectedDate : Js.Date) (hour minutes : Z) : Js.Date :=
  Js.setHours LocalTZA selectedDate (Some hour) (Some minutes) (Some 0) (Some 0).

Definition slotEndOf (selectedDate : Js.Date) (hour minutes : Z) : Js.Date :=
  Js.plus (slotStartOf selectedDate hour minutes) (slotDuration * 60000).

(** [existingAppointments.some(appointment => ...)]. *)
Definition hasConflict (selectedDate : Js.Date) (existingAppointments : list Appointment)
    (hour minutes : Z) : bool :=
  let slotStart := slotStartOf selectedDate hour minutes in
  let slotEnd := slotEndOf selectedDate hour minutes in
  existsb (λ appointment,
             let apptStart := timeOnDay selectedDate (startTime appointment) in
             let apptEnd := timeOnDay selectedDate (endTime appointment) in
             Js.lt slotStart apptEnd && Js.gt slotEnd apptStart)
          existingAppointments.

Definition timeString (hour minutes : Z) : string :=
  Js.padStart 2 "0" (Js.toString hour) +:+ ":" +:+ Js.padStart 2 "0" (Js.toString minutes).

(** The slot pushed for an instant of the selected day. *)
Definition slotAt (t : Z) (hour minutes : Z) : Slot :=
  {| time := timeString hour minutes;
     date := Js.split "T" (toISOString t) !! 0%nat;
     available := true |}.

(** The body of the inner loop; [toISOString] throws on an Invalid Date. *)
Definition slotStep (selectedDate : Js.Date) (existingAppointments : list Appointment)
    (hour minutes : Z) (availableSlots : list Slot) : Handler (list Slot) :=
  if hasConflict selectedDate existingAppointments hour minutes then mret availableSlots
  else match selectedDate with
       | Some t => mret (availableSlots ++ [slotAt t hour minutes])
       | None => throw "Invalid time value"
       end.

Definition availabilityBody (c : Ctx) (q : AvailabilityQuery.t) : Handler Response :=
  match AvailabilityQuery.practitionerId q, AvailabilityQuery.date q with
  | None, _ | _, AvailabilityQuery.Missing =>
      reply (failure 400 "Practitioner ID and date are required")
  | Some practitionerId, date =>
  (* Check if practitioner exists *)
  practitioner ← await c PractitionerFindById
                   (gets (λ db, practitioners db !! practitionerId));
  match practitioner with
  | None => reply (failure 404 "Practitioner not found")
  | Some _ =>
  let selectedDate : Js.Date :=
    match date with AvailabilityQuery.Instant t => Some t | _ => None end in
  let startOfDay := Js.setHours LocalTZA selectedDate (Some 0) (Some 0) (Some 0) (Some 0) in
  let selectedDate := startOfDay in
  let endOfDay := Js.setHours LocalTZA selectedDate (Some 23) (Some 59) (Some 59) (Some 999) in
  let selectedDate := endOfDay in
  (* Get existing appointments for the date *)
  existingAppointments ← await c AppointmentFind
                           (findBooked practitionerId startOfDay endOfDay);
  (* Generate available time slots (10 AM to 6 PM, 30-minute intervals) *)
  availableSlots ←
    forEach (Js.forLoop startHour endHour 1)
      (λ hour, forEach (Js.forLoop 0 60 slotDuration)
                 (λ minutes, slotStep selectedDate existingAppointments hour minutes))
      [];
  mret {| code := 200; success := true; message := None;
          data := SlotsData availableSlots |}
  end end.

Definition availability (c : Ctx) (q : AvailabilityQuery.t) : Db → Response * Db :=
  route (availabilityBody c q) (serverError "Server error fetching availability").

(** ** The /api/wallet router: POST /wallet/deduct *)

(** [isFloat({ min })] on a JSON number: its decimal form is a float
    literal exactly when it is finite, and the parsed value is compared
    with the minimum. *)
Definition isFloat (min : Js.Number) (x : Js.Number) : bool :=
  Js.isFinite x && SFleb min x.

Definition validateDeduct (b : DeductBody.t) : list string :=
  check (isFloat (Js.ofZ 1) (DeductBody.amount b)) "amount"
  ++ check (notEmpty (DeductBody.reason b)) "reason".

(** [user.walletBalance || 0]. *)
Definition balanceOf (u : User) : Js.Number :=
  match walletBalance u with
  | Some x => if Js.ToBoolean x then x else Js.ofZ 0
  | None => Js.ofZ 0
  end.

Definition deductBody (c : Ctx) (b : DeductBody.t) : Handler Response :=
  let errors := validateDeduct b in
  if negb (bool_decide (errors = [])) then reply (validationFailure errors) else
  found ← await c UserFindById (gets (λ db, users db !! user c));
  match found with
  | None => reply (failure 404 "User not found")
  | Some u =>
  let currentBalance := balanceOf u in
  if Js.less currentBalance (DeductBody.amount b)
  then reply (failure 400 "Insufficient wallet balance") else
  (* Update wallet balance *)
  let newBalance := Js.minus currentBalance (DeductBody.amount b) in
  _ ← await c UserSave
        (modify (withUsers <[user c := {| walletBalance := Some newBalance |}]>));
  mret {| code := 200; success := true;
          message := Some "Amount deducted successfully";
          data := WalletData newBalance (DeductBody.amount b) (DeductBody.reason b) |}
  end.

Definition deduct (c : Ctx) (b : DeductBody.t) : Db → Response * Db :=
  route (deductBody c b) (serverError "Server error deducting funds").

(** ** Vocabulary of the properties *)

(** An active appointment counts against conflict and availability checks. *)
Definition isActive (a : Appointment) : Prop :=
  status a = "scheduled" ∨ status a = "confirmed".

(** The answer of the booking-time conflict guard. *)
Definition slotConflict : Response := failure 400 "Time slot is already booked".

(** The answer to a booking that went through. *)
Definition created (id : Id) (a : Appointment) : Response :=
  {| code := 201; success := true;
     message := Some "Appointment created successfully";
     data := AppointmentData id a |}.

(** The candidate slots of a day, in the order the two loops visit them. *)
Definition grid : list (Z * Z) :=
  hour ← Js.forLoop startHour endHour 1;
  minutes ← Js.forLoop 0 60 slotDuration;
  [(hour, minutes)].

(** Minutes since midnight of a candidate slot. *)
Definition minuteOfDay (s : Z * Z) : Z := 60 * s.1 + s.2.

(** The candidates the loops keep when the selected date is valid. *)
Definition keptSlots (selectedDate : Z) (existingAppointments : list Appointment)
  : list (Z * Z) :=
  filter (λ s, hasConflict (Some selectedDate) existingAppointments s.1 s.2 = false) grid.

(** [a < b] as instants: both dates are valid and ordered. *)
Definition before (a b : Js.Date) : Prop :=
  ∃ x y, a = Some x ∧ b = Some y ∧ x < y.

(** The interval test [slotStart < apptEnd AND slotEnd > apptStart]. *)
Definition overlap (slotStart slotEnd apptStart apptEnd : Js.Date) : Prop :=
  before slotStart apptEnd ∧ before apptStart slotEnd.

(** The caller passes the permission block for appointment [a]. *)
Definition permitted (c : Ctx) (db : Db) (a : Appointment) : Prop :=
  role c = "patient" →
  ∃ p, findOne (λ p, userId p = user c) (patients db) = Some (patient a, p).

(** One request to a mutating appointment route. *)
Inductive step : Db → Db → Prop :=
| step_create c b db : step db (createAppointment c b db).2
| step_update c id b db : step db (updateAppointment c id b db).2
| step_status c id b db : step db (updateStatus c id b db).2
| step_cancel c id db : step db (cancelAppointment c id db).2.

(** The stores the routes can produce from one without appointments. *)
Inductive reachable : Db → Prop :=
| reachable_init db : appointments db = ∅ → reachable db
| reachable_step db db' : reachable db → step db db' → reachable db'.

(** The three cancellation fields of an appointment are all set. *)
Definition cancellationSet (a : Appointment) : Prop :=
  is_Some (cancelledAt a) ∧ is_Some (cancelledBy a) ∧ is_Some (cancellationReason a).

(** The cancellation stamp is coherent: time and role are set together,
    and a reason is recorded only along with them. *)
Definition stampCoherent (a : Appointment) : Prop :=
  (is_Some (cancelledAt a) ↔ is_Some (cancelledBy a))
  ∧ (is_Some (cancellationReason a) → is_Some (cancelledAt a)).

End Routes.

(** ** A small clinic for the examples *)

Module Clinic.

(** Indian Standard Time, UTC+05:30. *)
Definition IST : Z := 19800000.

Definition localeDate (_ : Z) : string := "1/6/2024".

Definition isoString (_ : Z) : string := "2024-06-01T18:29:59.999Z".

(** 2024-06-01T00:00:00Z. *)
Definition june1 : Z := 1717200000000.

Definition healthy : Op → bool := λ _, false.

Definition admin : Ctx :=
  {| user := 9%nat; role := "admin"; now := 1717100000000; fails := healthy |}.

Definition patientUser : Ctx :=
  {| user := 7%nat; role := "patient"; now := 1717000000000; fails := healthy |}.

(** The notification collection is down. *)
Definition notificationsDown : Ctx :=
  {| user := 9%nat; role := "admin"; now := 1717100000000;
     fails := λ op, match op with NotificationSave => true | _ => false end |}.

(** The mail and SMS gateway is down. *)
Definition gatewayDown : Ctx :=
  {| user := 9%nat; role := "admin"; now := 1717100000000;
     fails := λ op, match op with SendAppointmentConfirmation => true | _ => false end |}.

Definition empty : Db :=
  {| patients := {[ 1%nat := {| userId := 7%nat |} ]};
     practitioners := {[ 2%nat := {| practitionerUserId := 8%nat |} ]};
     appointments := ∅;
     notifications := ∅;
     users := {[ 7%nat := {| walletBalance := Some (Js.ofZ 500) |} ]} |}.

Definition booking (start finish : string) : CreateBody.t :=
  {| CreateBody.patientId := 1%nat;
     CreateBody.practitionerId := 2%nat;
     CreateBody.therapyType := "basti";
     CreateBody.scheduledDate := june1;
     CreateBody.startTime := start;
     CreateBody.endTime := finish;
     CreateBody.duration := 30;
     CreateBody.cost := Q2Qc 100;
     CreateBody.notes := None;
     CreateBody.preSessionInstructions := None;
     CreateBody.postSessionInstructions := None |}.

Definition completedWithReason : StatusBody.t :=
  {| StatusBody.status := "completed"; StatusBody.cancellationReason := Some "done" |}.

(** The store after practitioner 2 was booked at 10:00-10:30. *)
Definition booked : Db := (createAppointment localeDate admin (booking "10:00" "10:30") empty).2.

(** The same appointment, cancelled by the patient. *)
Definition cancelledByPatient : Db := (cancelAppointment patientUser 0%nat booked).2.

(** Practitioner 2 booked at 10:00-10:30 and at 11:00-11:30. *)
Definition bookedTwice : Db :=
  (createAppointment localeDate admin (booking "11:00" "11:30") booked).2.

(** The 10:00 appointment set to "completed", with a reason. *)
Definition completed : Db := (updateStatus admin 0%nat completedWithReason booked).2.

Definition june1Query : AvailabilityQuery.t :=
  {| AvailabilityQuery.practitionerId := Some 2%nat;
     AvailabilityQuery.date := AvailabilityQuery.Instant june1 |}.

Definition pay (amount : Z) : DeductBody.t :=
  {| DeductBody.amount := Js.ofZ amount; DeductBody.reason := "session" |}.

(** Half a rupee. *)
Definition payHalf : DeductBody.t :=
  {| DeductBody.amount := Js.scaled 1 (-1); DeductBody.reason := "session" |}.

(** A wallet of ten thousand million million rupees, a balance whose
    neighbours among the Numbers are two apart. *)
Definition wealthy : Db :=
  {| patients := {[ 1%nat := {| userId := 7%nat |} ]};
     practitioners := {[ 2%nat := {| practitionerUserId := 8%nat |} ]};
     appointments := ∅;
     notifications := ∅;
     users := {[ 7%nat := {| walletBalance := Some (Js.ofZ 10000000000000000) |} ]} |}.

Definition moveTo (start finish : string) : UpdateBody.t :=
  {| UpdateBody.scheduledDate := None;
     UpdateBody.startTime := Some start;
     UpdateBody.endTime := Some finish;
     UpdateBody.duration := None;
     UpdateBody.notes := None;
     UpdateBody.preSessionInstructions := None;
     UpdateBody.postSessionInstructions := None |}.

End Clinic.

(** ** Vocabulary of the further properties *)


(** The booking [b] asks for the practitioner, day and start time of [a]. *)
Definition sameSlot (b : CreateBody.t) (a : Appointment) : Prop :=
  practitioner a = CreateBody.practitionerId b
  ∧ scheduledDate a = CreateBody.scheduledDate b
  ∧ startTime a = CreateBody.startTime b.

(** ** More of the clinic for the examples *)

Module Ward.

(** A booking that asks for five minutes. *)
Definition tooShort : CreateBody.t :=
  {| CreateBody.patientId := 1%nat;
     CreateBody.practitionerId := 2%nat;
     CreateBody.therapyType := "basti";
     CreateBody.scheduledDate := Clinic.june1;
     CreateBody.startTime := "10:00";
     CreateBody.endTime := "10:05";
     CreateBody.duration := 5;
     CreateBody.cost := Q2Qc 100;
     CreateBody.notes := None;
     CreateBody.preSessionInstructions := None;
     CreateBody.postSessionInstructions := None |}.

(** A booking for a patient profile that does not exist. *)
Definition forNobody : CreateBody.t :=
  {| CreateBody.patientId := 5%nat;
     CreateBody.practitionerId := 2%nat;
     CreateBody.therapyType := "basti";
     CreateBody.scheduledDate := Clinic.june1;
     CreateBody.startTime := "10:00";
     CreateBody.endTime := "10:30";
     CreateBody.duration := 30;
     CreateBody.cost := Q2Qc 100;
     CreateBody.notes := None;
     CreateBody.preSessionInstructions := None;
     CreateBody.postSessionInstructions := None |}.

(** The same slot as [Clinic.booking "10:00" "10:30"], for another therapy
    and another length. *)
Definition sameStart : CreateBody.t :=
  {| CreateBody.patientId := 1%nat;
     CreateBody.practitionerId := 2%nat;
     CreateBody.therapyType := "nasya";
     CreateBody.scheduledDate := Clinic.june1;
     CreateBody.startTime := "10:00";
     CreateBody.endTime := "11:00";
     CreateBody.duration := 60;
     CreateBody.cost := Q2Qc 250;
     CreateBody.notes := None;
     CreateBody.preSessionInstructions := None;
     CreateBody.postSessionInstructions := None |}.

(** Every store call throws. *)
Definition storeDown : Ctx :=
  {| user := 9%nat; role := "admin"; now := 1717100000000; fails := λ _, true |}.


(** The practitioner of the clinic. *)
Definition doctor : Ctx :=
  {| user := 8%nat; role := "practitioner"; now := 1717060000000; fails := Clinic.healthy |}.

(** A practitioner account that is not the practitioner of the clinic. *)
Definition locum : Ctx :=
  {| user := 12%nat; role := "practitioner"; now := 1717070000000; fails := Clinic.healthy |}.

Definition setStatus (st : string) : StatusBody.t :=
  {| StatusBody.status := st; StatusBody.cancellationReason := None |}.

End Ward.

(** ** Availability queries for the examples *)

Module Desk.

Definition noPractitioner : AvailabilityQuery.t :=
  {| AvailabilityQuery.practitionerId := None;
     AvailabilityQuery.date := AvailabilityQuery.Instant Clinic.june1 |}.

(** Practitioner 4 does not exist; the date does not parse. *)
Definition unknownOnBadDate : AvailabilityQuery.t :=
  {| AvailabilityQuery.practitionerId := Some 4%nat;
     AvailabilityQuery.date := AvailabilityQuery.Invalid |}.

Definition badDate : AvailabilityQuery.t :=
  {| AvailabilityQuery.practitionerId := Some 2%nat;
     AvailabilityQuery.date := AvailabilityQuery.Invalid |}.

End Desk.

(** ** Wall-clock times, as the spec writes them *)

(** The character of a decimal digit. *)
Definition digitChar (d : Z) : ascii := ascii_of_nat (48 + Z.to_nat d).

(** Modelled from the spec: the "HH:MM" string of hour [h] and minute
    [m], as in "10:00" and "17:30". *)
Definition clock (h m : Z) : string :=
  String (digitChar (h / 10)) (String (digitChar (h mod 10))
    (String ":" (String (digitChar (m / 10)) (String (digitChar (m mod 10)) EmptyString)))).

(** ** Wallet requests for the examples *)

Module Till.

(** The patient's session, with the user collection refusing writes. *)
Definition saveDown : Ctx :=
  {| user := 7%nat; role := "patient"; now := 1717000000000;
     fails := λ op, match op with UserSave => true | _ => false end |}.

End Till.

(** * Properties *)

(** ** The store and the handler monad *)

Lemma find_elem {A} (P : A → Prop) `{!∀ x, Decision (P x)} (m : gmap nat A) id a :
  (id, a) ∈ find P m ↔ m !! id = Some a ∧ P a.
Proof.
  unfold find. rewrite list_elem_of_filter, elem_of_map_to_list. simpl. tauto.
Qed.

Lemma findOne_is_Some {A} (P : A → Prop) `{!∀ x, Decision (P x)} (m : gmap nat A) :
  is_Some (findOne P m) ↔ ∃ id a, m !! id = Some a ∧ P a.
Proof.
  unfold findOne. split.
  - intros [[id a] Hh]. apply head_Some_elem_of in Hh. apply find_elem in Hh. eauto.
  - intros (id & a & Hm & HP).
    assert (Hin : (id, a) ∈ find P m) by (by apply find_elem).
    destruct (find P m) as [|x l]; [by apply elem_of_nil in Hin | by eexists].
Qed.

Lemma findOne_None {A} (P : A → Prop) `{!∀ x, Decision (P x)} (m : gmap nat A) :
  findOne P m = None ↔ ∀ id a, m !! id = Some a → ¬ P a.
Proof.
  rewrite eq_None_not_Some, findOne_is_Some. split.
  - intros Hno id a Hm HP. apply Hno. eauto.
  - intros Hno (id & a & Hm & HP). by apply (Hno id a).
Qed.

Lemma active_statuses st : st ∈ activeStatuses ↔ st = "scheduled" ∨ st = "confirmed".
Proof.
  unfold activeStatuses. rewrite !elem_of_cons, elem_of_nil. tauto.
Qed.

Section Properties.

Set Default Proof Using "Type".

Variable LocalTZA : Z.
Variable toLocaleDateString : Z → string.
Variable toISOString : Z → string.


Lemma createAppointment_past_guard c b db p q :
  validateCreate b = [] →
  patients db !! CreateBody.patientId b = Some p →
  practitioners db !! CreateBody.practitionerId b = Some q →
  fails c PatientFindById = false →
  fails c PractitionerFindById = false →
  fails c AppointmentFindOne = false →
  findOne (slotTaken (CreateBody.practitionerId b) (CreateBody.scheduledDate b)
                     (CreateBody.startTime b)) (appointments db) = None →
  createAppointment toLocaleDateString c b db =
    if fails c AppointmentSave
    then (serverError "Server error creating appointment" "operation failed", db)
    else
      let id := newId (appointments db) in
      let db1 := withAppointments <[id := newAppointment b]> db in
      if fails c NotificationSave
      then (serverError "Server error creating appointment" "operation failed", db1)
      else
        let db2 := withNotifications
                     <[newId (notifications db1) :=
                         confirmationNotification toLocaleDateString b p id]> db1 in
        if fails c AppointmentPopulate
        then (serverError "Server error creating appointment" "operation failed", db2)
        else (created id (newAppointment b), db2).
Proof.
  intros Hv Hp Hq F1 F2 F3 Hfree.
  unfold createAppointment, route, createAppointmentBody.
  rewrite Hv. simpl. unfold await. rewrite F1, F2, F3.
  unfold mbind, Handler_bind, gets. rewrite Hp, Hq, Hfree.
  destruct (fails c AppointmentSave); [done|].
  unfold insertAppointment. 
  destruct (fails c NotificationSave); [done|].
  unfold insertNotification, tryCatch.
  destruct (fails c SendAppointmentConfirmation), (fails c AppointmentPopulate); done.
Qed.


Lemma createAppointment_taken c b db p q x :
  validateCreate b = [] →
  patients db !! CreateBody.patientId b = Some p →
  practitioners db !! CreateBody.practitionerId b = Some q →
  fails c PatientFindById = false →
  fails c PractitionerFindById = false →
  fails c AppointmentFindOne = false →
  findOne (slotTaken (CreateBody.practitionerId b) (CreateBody.scheduledDate b)
                     (CreateBody.startTime b)) (appointments db) = Some x →
  createAppointment toLocaleDateString c b db = (slotConflict, db).
Proof.
  intros Hv Hp Hq F1 F2 F3 Htaken.
  unfold createAppointment, route, createAppointmentBody.
  rewrite Hv. simpl. unfold await. rewrite F1, F2, F3.
  unfold mbind, Handler_bind, gets. by rewrite Hp, Hq, Htaken.
Qed.

Lemma slotTaken_spec pid d s a :
  slotTaken pid d s a ↔
  practitioner a = pid ∧ scheduledDate a = d ∧ startTime a = s ∧ isActive a.
Proof. unfold slotTaken, isActive. by rewrite active_statuses. Qed.

(** C1. Once the request is valid and patient and practitioner exist, a
    booking is answered "Time slot is already booked" exactly when some
    stored appointment of the same practitioner and the same scheduledDate
    has the very same startTime string and is scheduled or confirmed; a
    booking whose startTime differs from every such appointment is not
    rejected by the guard, whatever the intervals are. *)
Theorem conflict_guard_exact_start c b db p q :
  validateCreate b = [] →
  patients db !! CreateBody.patientId b = Some p →
  practitioners db !! CreateBody.practitionerId b = Some q →
  fails c PatientFindById = false →
  fails c PractitionerFindById = false →
  fails c AppointmentFindOne = false →
  ((createAppointment toLocaleDateString c b db).1 = slotConflict
   ↔ ∃ id a, appointments db !! id = Some a
             ∧ practitioner a = CreateBody.practitionerId b
             ∧ scheduledDate a = CreateBody.scheduledDate b
             ∧ startTime a = CreateBody.startTime b
             ∧ isActive a)
  ∧ ((∀ id a, appointments db !! id = Some a →
              practitioner a = CreateBody.practitionerId b →
              scheduledDate a = CreateBody.scheduledDate b →
              isActive a →
              startTime a ≠ CreateBody.startTime b) →
     (createAppointment toLocaleDateString c b db).1 ≠ slotConflict).
Proof.
  intros Hv Hp Hq F1 F2 F3.
  assert (Hiff : (createAppointment toLocaleDateString c b db).1 = slotConflict
     ↔ ∃ id a, appointments db !! id = Some a
             ∧ practitioner a = CreateBody.practitionerId b
             ∧ scheduledDate a = CreateBody.scheduledDate b
             ∧ startTime a = CreateBody.startTime b
             ∧ isActive a).
  { destruct (findOne (slotTaken (CreateBody.practitionerId b)
                (CreateBody.scheduledDate b) (CreateBody.startTime b))
                (appointments db)) as [x|] eqn:Hfind.
    - rewrite (createAppointment_taken c b db p q x) by done. split; [intros _|done].
      destruct (proj1 (findOne_is_Some _ _) (mk_is_Some _ _ Hfind)) as (id & a & Hm & Ht).
      apply slotTaken_spec in Ht. eauto.
    - rewrite (createAppointment_past_guard c b db p q) by done. split.
      + destruct (fails c AppointmentSave); [done|].
        destruct (fails c NotificationSave); [done|].
        destruct (fails c AppointmentPopulate); done.
      + intros (id & a & Hm & Ht). exfalso.
        apply (proj1 (findOne_None _ _) Hfind id a Hm). by apply slotTaken_spec. }
  split; [exact Hiff|].
  intros Hdiff Hconf. apply Hiff in Hconf as (id & a & Hm & Hpr & Hd & Hs & Ha).
  by apply (Hdiff id a).
Qed.


(** ** Creation *)

Ltac run_handler :=
  unfold route, await, tryCatch, insertAppointment, insertNotification, saveAppointment;
  unfold reply, throw, gets, modify;
  unfold mbind, mret, Handler_bind, Handler_ret.

(** A 201 answer is given only at the end of the handler: the appointment
    was stored under a new id and is returned. *)
Lemma createAppointment_201 c b db :
  code (createAppointment toLocaleDateString c b db).1 = 201 →
  (createAppointment toLocaleDateString c b db).1
    = created (newId (appointments db)) (newAppointment b)
  ∧ appointments (createAppointment toLocaleDateString c b db).2
    = <[newId (appointments db) := newAppointment b]> (appointments db).
Proof.
  unfold createAppointment, createAppointmentBody. run_handler.
  repeat (case_match; simpl in *; simplify_eq; try done).
Qed.

(** C7. A booking that is answered 201 has stored and returned an
    appointment whose reminder list is the e-mail reminder 24 hours before
    scheduledDate followed by the SMS reminder 2 hours before it; the list
    is a function of scheduledDate alone: any other successful booking with
    the same scheduledDate, by whomever, whenever and on whatever store,
    gets the same list. *)
Theorem reminders_of_created c b db :
  code (createAppointment toLocaleDateString c b db).1 = 201 →
  ∃ id a,
    data (createAppointment toLocaleDateString c b db).1 = AppointmentData id a
    ∧ appointments (createAppointment toLocaleDateString c b db).2 !! id = Some a
    ∧ reminders a =
        [ {| type := "email"; scheduledTime := CreateBody.scheduledDate b - 86400000 |};
          {| type := "sms"; scheduledTime := CreateBody.scheduledDate b - 7200000 |} ]
    ∧ ∀ c' b' db',
        CreateBody.scheduledDate b' = CreateBody.scheduledDate b →
        code (createAppointment toLocaleDateString c' b' db').1 = 201 →
        ∃ id' a',
          data (createAppointment toLocaleDateString c' b' db').1 = AppointmentData id' a'
          ∧ appointments (createAppointment toLocaleDateString c' b' db').2 !! id' = Some a'
          ∧ reminders a' = reminders a.
Proof.
  intros Hok. apply createAppointment_201 in Hok as [Hr Hdb].
  exists (newId (appointments db)), (newAppointment b).
  rewrite Hr, Hdb. split; [done|]. split; [apply lookup_insert_eq|]. split; [done|].
  intros c' b' db' Hdate Hok'. apply createAppointment_201 in Hok' as [Hr' Hdb'].
  exists (newId (appointments db')), (newAppointment b').
  rewrite Hr', Hdb'. split; [done|]. split; [apply lookup_insert_eq|].
  simpl. by rewrite Hdate.
Qed.

(** C9, as the handler has it. Once the appointment has been written,
    nothing that fails afterwards removes it from the store; a failure of
    the e-mail and SMS dispatch is swallowed, so that the booking is still
    answered 201 with the appointment when the notification record and the
    final populate go through; a failure to persist the notification
    record however ends the request with a 500 answer. *)
Theorem booking_survives_notification_failure c b db p q :
  validateCreate b = [] →
  patients db !! CreateBody.patientId b = Some p →
  practitioners db !! CreateBody.practitionerId b = Some q →
  fails c PatientFindById = false →
  fails c PractitionerFindById = false →
  fails c AppointmentFindOne = false →
  findOne (slotTaken (CreateBody.practitionerId b) (CreateBody.scheduledDate b)
                     (CreateBody.startTime b)) (appointments db) = None →
  fails c AppointmentSave = false →
  appointments (createAppointment toLocaleDateString c b db).2 !! newId (appointments db)
    = Some (newAppointment b)
  ∧ (fails c NotificationSave = false → fails c AppointmentPopulate = false →
     (createAppointment toLocaleDateString c b db).1
       = created (newId (appointments db)) (newAppointment b))
  ∧ (fails c NotificationSave = true →
     (createAppointment toLocaleDateString c b db).1
       = serverError "Server error creating appointment" "operation failed").
Proof.
  intros Hv Hp Hq F1 F2 F3 Hfree F4.
  rewrite (createAppointment_past_guard c b db p q) by done. rewrite F4.
  destruct (fails c NotificationSave), (fails c AppointmentPopulate); simpl;
    (split; [apply lookup_insert_eq|split; done]).
Qed.

(** ** Life cycle: update, status change, cancellation *)

Lemma accessDenied_permitted c db a :
  permitted c db a →
  fails c PatientFindOne = false →
  accessDenied c a db = (Val false, db).
Proof.
  intros Hperm F. unfold accessDenied. case_bool_decide as Hrole; [|done].
  destruct (Hperm Hrole) as [p Hp]. run_handler. rewrite F, Hp.
  by rewrite bool_decide_eq_true_2.
Qed.

Lemma updateAppointment_run c id b db a :
  appointments db !! id = Some a →
  permitted c db a →
  fails c AppointmentFindById = false →
  fails c PatientFindOne = false →
  fails c AppointmentSave = false →
  updateAppointment c id b db =
    ({| code := 200; success := true;
        message := Some "Appointment updated successfully";
        data := AppointmentData id (applyUpdate b a) |},
     withAppointments <[id := applyUpdate b a]> db).
Proof.
  intros Ha Hperm F1 F2 F3. unfold updateAppointment, updateAppointmentBody.
  unfold route, await. rewrite F1, F3. unfold mbind, Handler_bind at 1. unfold gets at 1.
  rewrite Ha. unfold mbind, Handler_bind at 1.
  rewrite (accessDenied_permitted c db a Hperm F2). done.
Qed.

(** C3. An update by a permitted caller goes through on every store, with
    no look at the other appointments: the stored appointment takes the
    scheduledDate, startTime, endTime, duration, notes and instruction
    fields the body provides, keeps every other field (patient,
    practitioner, therapy type, cost, status, cancellation fields,
    reminders), and the other appointments stay as they are, also the
    active ones of the same practitioner that the new times now collide
    with. *)
Theorem update_frame_without_guard c id b db a :
  appointments db !! id = Some a →
  permitted c db a →
  fails c AppointmentFindById = false →
  fails c PatientFindOne = false →
  fails c AppointmentSave = false →
  ∃ a',
    (updateAppointment c id b db).1
      = {| code := 200; success := true;
           message := Some "Appointment updated successfully";
           data := AppointmentData id a' |}
    ∧ appointments (updateAppointment c id b db).2 !! id = Some a'
    ∧ (scheduledDate a' = default (scheduledDate a) (UpdateBody.scheduledDate b)
       ∧ startTime a' = default (startTime a) (UpdateBody.startTime b)
       ∧ endTime a' = default (endTime a) (UpdateBody.endTime b)
       ∧ duration a' = default (duration a) (UpdateBody.duration b)
       ∧ notes a' = from_option Some (notes a) (UpdateBody.notes b)
       ∧ preSessionInstructions a'
         = from_option Some (preSessionInstructions a) (UpdateBody.preSessionInstructions b)
       ∧ postSessionInstructions a'
         = from_option Some (postSessionInstructions a) (UpdateBody.postSessionInstructions b))
    ∧ (patient a' = patient a
       ∧ practitioner a' = practitioner a
       ∧ therapyType a' = therapyType a
       ∧ cost a' = cost a
       ∧ status a' = status a
       ∧ cancellationReason a' = cancellationReason a
       ∧ cancelledBy a' = cancelledBy a
       ∧ cancelledAt a' = cancelledAt a
       ∧ reminders a' = reminders a)
    ∧ (∀ other, other ≠ id →
         appointments (updateAppointment c id b db).2 !! other = appointments db !! other).
Proof.
  intros Ha Hperm F1 F2 F3. exists (applyUpdate b a).
  rewrite (updateAppointment_run c id b db a) by done. simpl.
  split; [done|]. split; [apply lookup_insert_eq|].
  split; [|split; [done|]].
  - destruct (UpdateBody.notes b), (UpdateBody.preSessionInstructions b),
      (UpdateBody.postSessionInstructions b); repeat split; done.
  - intros other Hne. by apply lookup_insert_ne.
Qed.

Lemma validateStatus_ok b :
  StatusBody.status b ∈ statusValues →
  (∀ r, StatusBody.cancellationReason b = Some r → r ≠ "") →
  validateStatus b = [].
Proof.
  intros Hst Hr. unfold validateStatus. rewrite bool_decide_eq_true_2 by done.
  destruct (StatusBody.cancellationReason b) as [r|]; [|done].
  rewrite bool_decide_eq_true_2; [done|].
  destruct r; [by destruct (Hr "" eq_refl)|simpl; lia].
Qed.

Lemma updateStatus_run c id b db a :
  validateStatus b = [] →
  appointments db !! id = Some a →
  fails c AppointmentFindById = false →
  fails c AppointmentSave = false →
  fails c NotificationSave = false →
  updateStatus c id b db =
    ({| code := 200; success := true;
        message := Some "Appointment status updated successfully";
        data := AppointmentData id (applyStatus c b a) |},
     withNotifications
       <[newId (notifications db) := statusNotification b id (applyStatus c b a)]>
       (withAppointments <[id := applyStatus c b a]> db)).
Proof.
  intros Hv Ha F1 F2 F3. unfold updateStatus, updateStatusBody.
  rewrite Hv. simpl. run_handler. by rewrite F1, F2, F3, Ha.
Qed.

Lemma notEmpty_true r : r ≠ "" → notEmpty r = true.
Proof. intros Hr. unfold notEmpty. by destruct r. Qed.

(** C5. A status change has no transition guard: whatever the current
    state of an existing appointment, terminal or not, and for each of the
    six status values, the request is answered 200 and the stored
    appointment has the requested status; and whenever a cancellation
    reason comes with the request, the reason, the caller's role and the
    current time are written to the cancellation fields, whether or not the
    new status is "cancelled" (without a reason they are left alone). *)
Theorem updateStatus_no_transition_guard c id b db a :
  appointments db !! id = Some a →
  StatusBody.status b ∈ statusValues →
  (∀ r, StatusBody.cancellationReason b = Some r → r ≠ "") →
  fails c AppointmentFindById = false →
  fails c AppointmentSave = false →
  fails c NotificationSave = false →
  ∃ a',
    (updateStatus c id b db).1
      = {| code := 200; success := true;
           message := Some "Appointment status updated successfully";
           data := AppointmentData id a' |}
    ∧ appointments (updateStatus c id b db).2 !! id = Some a'
    ∧ status a' = StatusBody.status b
    ∧ (∀ r, StatusBody.cancellationReason b = Some r →
         cancellationReason a' = Some r
         ∧ cancelledBy a' = Some (role c)
         ∧ cancelledAt a' = Some (now c))
    ∧ (StatusBody.cancellationReason b = None →
         cancellationReason a' = cancellationReason a
         ∧ cancelledBy a' = cancelledBy a
         ∧ cancelledAt a' = cancelledAt a).
Proof.
  intros Ha Hst Hr F1 F2 F3. exists (applyStatus c b a).
  rewrite (updateStatus_run c id b db a) by auto using validateStatus_ok. simpl.
  split; [done|]. split; [apply lookup_insert_eq|]. split; [done|]. split.
  - intros r Hb. rewrite Hb, (notEmpty_true r) by eauto. done.
  - intros Hb. by rewrite Hb.
Qed.

Lemma cancelAppointment_run c id db a :
  appointments db !! id = Some a →
  permitted c db a →
  fails c AppointmentFindById = false →
  fails c PatientFindOne = false →
  fails c AppointmentSave = false →
  cancelAppointment c id db =
    ({| code := 200; success := true;
        message := Some "Appointment cancelled successfully";
        data := NoData |},
     withAppointments <[id := applyCancel c a]> db).
Proof.
  intros Ha Hperm F1 F2 F3. unfold cancelAppointment, cancelAppointmentBody.
  unfold route, await. rewrite F1, F3. unfold mbind, Handler_bind at 1. unfold gets at 1.
  rewrite Ha. unfold mbind, Handler_bind at 1.
  rewrite (accessDenied_permitted c db a Hperm F2). done.
Qed.

(** C8, as the handler has it. Cancelling a cancelled appointment again is
    not an error: a permitted caller is answered 200 and the status stays
    "cancelled"; the handler however stamps the appointment anew, so that
    cancelledBy becomes the role of this caller and cancelledAt the time of
    this call, while every other field and every other appointment is left
    as it was. *)
Theorem cancel_again_restamps c id db a :
  appointments db !! id = Some a →
  status a = "cancelled" →
  permitted c db a →
  fails c AppointmentFindById = false →
  fails c PatientFindOne = false →
  fails c AppointmentSave = false →
  (cancelAppointment c id db).1
    = {| code := 200; success := true;
         message := Some "Appointment cancelled successfully";
         data := NoData |}
  ∧ ∃ a',
      appointments (cancelAppointment c id db).2 !! id = Some a'
      ∧ status a' = "cancelled"
      ∧ cancelledBy a' = Some (role c)
      ∧ cancelledAt a' = Some (now c)
      ∧ (patient a' = patient a
         ∧ practitioner a' = practitioner a
         ∧ therapyType a' = therapyType a
         ∧ scheduledDate a' = scheduledDate a
         ∧ startTime a' = startTime a
         ∧ endTime a' = endTime a
         ∧ duration a' = duration a
         ∧ cost a' = cost a
         ∧ notes a' = notes a
         ∧ preSessionInstructions a' = preSessionInstructions a
         ∧ postSessionInstructions a' = postSessionInstructions a
         ∧ status a' = status a
         ∧ cancellationReason a' = cancellationReason a
         ∧ reminders a' = reminders a)
      ∧ (∀ other, other ≠ id →
           appointments (cancelAppointment c id db).2 !! other = appointments db !! other).
Proof.
  intros Ha Hst Hperm F1 F2 F3.
  rewrite (cancelAppointment_run c id db a) by done. simpl.
  split; [done|]. exists (applyCancel c a).
  split; [apply lookup_insert_eq|]. simpl. rewrite Hst.
  repeat split. intros other Hne. by apply lookup_insert_ne.
Qed.

(** ** The cancellation fields over the life of an appointment *)

Ltac run_route :=
  unfold createAppointment, createAppointmentBody, updateAppointment, updateAppointmentBody,
    updateStatus, updateStatusBody, cancelAppointment, cancelAppointmentBody, accessDenied;
  run_handler.

Lemma createAppointment_store c b db :
  appointments (createAppointment toLocaleDateString c b db).2 = appointments db
  ∨ appointments (createAppointment toLocaleDateString c b db).2
    = <[newId (appointments db) := newAppointment b]> (appointments db).
Proof. run_route. repeat (case_match; simpl in *; simplify_eq; auto). Qed.

Lemma updateAppointment_store c id b db :
  appointments (updateAppointment c id b db).2 = appointments db
  ∨ ∃ a, appointments db !! id = Some a
         ∧ appointments (updateAppointment c id b db).2
           = <[id := applyUpdate b a]> (appointments db).
Proof. run_route. repeat (case_match; simpl in *; simplify_eq; eauto). Qed.

Lemma updateStatus_store c id b db :
  appointments (updateStatus c id b db).2 = appointments db
  ∨ ∃ a, appointments db !! id = Some a
         ∧ appointments (updateStatus c id b db).2
           = <[id := applyStatus c b a]> (appointments db).
Proof. run_route. repeat (case_match; simpl in *; simplify_eq; eauto). Qed.

Lemma cancelAppointment_store c id db :
  appointments (cancelAppointment c id db).2 = appointments db
  ∨ ∃ a, appointments db !! id = Some a
         ∧ appointments (cancelAppointment c id db).2
           = <[id := applyCancel c a]> (appointments db).
Proof. run_route. repeat (case_match; simpl in *; simplify_eq; eauto). Qed.

Lemma stampCoherent_new b : stampCoherent (newAppointment b).
Proof. split; simpl; [split|]; intros []%is_Some_None. Qed.

Lemma stampCoherent_update b a : stampCoherent a → stampCoherent (applyUpdate b a).
Proof. done. Qed.

Lemma stampCoherent_status c b a : stampCoherent a → stampCoherent (applyStatus c b a).
Proof.
  intros [Hboth Hreason]. unfold stampCoherent, applyStatus. simpl.
  destruct (StatusBody.cancellationReason b) as [r|]; [|done].
  destruct (notEmpty r); [|done]. split; [split|]; eauto.
Qed.

Lemma stampCoherent_cancel c a : stampCoherent a → stampCoherent (applyCancel c a).
Proof. intros _. split; simpl; [split|]; eauto. Qed.

(** The cancellation stamp of every appointment of a reachable store is
    coherent. *)
Lemma stamp_invariant db :
  reachable toLocaleDateString db →
  ∀ id a, appointments db !! id = Some a →
    (is_Some (cancelledAt a) ↔ is_Some (cancelledBy a))
    ∧ (is_Some (cancellationReason a) → is_Some (cancelledAt a)).
Proof.
  change (reachable toLocaleDateString db →
          ∀ id a, appointments db !! id = Some a → stampCoherent a).
  induction 1 as [db Hempty|db db' Hreach IH Hstep]; intros id a Ha.
  - rewrite Hempty in Ha. by rewrite lookup_empty in Ha.
  - destruct Hstep as [c b db|c id0 b db|c id0 b db|c id0 db].
    + destruct (createAppointment_store c b db) as [Heq|Heq]; rewrite Heq in Ha; [eauto|].
      apply lookup_insert_Some in Ha as [[_ <-]|[_ Ha]]; eauto using stampCoherent_new.
    + destruct (updateAppointment_store c id0 b db) as [Heq|(a0 & Ha0 & Heq)];
        rewrite Heq in Ha; [eauto|].
      apply lookup_insert_Some in Ha as [[_ <-]|[_ Ha]]; eauto using stampCoherent_update.
    + destruct (updateStatus_store c id0 b db) as [Heq|(a0 & Ha0 & Heq)];
        rewrite Heq in Ha; [eauto|].
      apply lookup_insert_Some in Ha as [[_ <-]|[_ Ha]]; eauto using stampCoherent_status.
    + destruct (cancelAppointment_store c id0 db) as [Heq|(a0 & Ha0 & Heq)];
        rewrite Heq in Ha; [eauto|].
      apply lookup_insert_Some in Ha as [[_ <-]|[_ Ha]]; eauto using stampCoherent_cancel.
Qed.

(** An answer 200 of the cancel route: the appointment was found and its
    cancelled copy stored. *)
Lemma cancelAppointment_200 c id db :
  code (cancelAppointment c id db).1 = 200 →
  ∃ a, appointments db !! id = Some a
       ∧ appointments (cancelAppointment c id db).2
         = <[id := applyCancel c a]> (appointments db).
Proof. run_route. repeat (case_match; simpl in *; simplify_eq; try done; eauto). Qed.

(** An answer 200 of the status route: the body was valid, the
    appointment was found and its copy with the new status stored. *)
Lemma updateStatus_200 c id b db :
  code (updateStatus c id b db).1 = 200 →
  validateStatus b = []
  ∧ ∃ a, appointments db !! id = Some a
         ∧ appointments (updateStatus c id b db).2
           = <[id := applyStatus c b a]> (appointments db).
Proof.
  run_route. repeat (case_match; simpl in *; simplify_eq; try done). intros _.
  split; [|eauto].
  match goal with H : negb (bool_decide _) = false |- _ =>
    by apply negb_false_iff, bool_decide_eq_true in H end.
Qed.

Lemma validateStatus_reason b r :
  validateStatus b = [] → StatusBody.cancellationReason b = Some r → notEmpty r = true.
Proof.
  unfold validateStatus. intros Hv Hr. rewrite Hr in Hv.
  destruct (bool_decide (StatusBody.status b ∈ statusValues)); [|done]. simpl in Hv.
  destruct r; [done|done].
Qed.

(** One request never clears a cancellation field of a stored appointment. *)
Lemma step_keeps_stamp db db' id a :
  step toLocaleDateString db db' →
  appointments db !! id = Some a →
  ∃ a', appointments db' !! id = Some a'
        ∧ (is_Some (cancelledAt a) → is_Some (cancelledAt a'))
        ∧ (is_Some (cancelledBy a) → is_Some (cancelledBy a'))
        ∧ (is_Some (cancellationReason a) → is_Some (cancellationReason a')).
Proof.
  intros Hstep. revert a. destruct Hstep as [c b db|c id0 b db|c id0 b db|c id0 db]; intros a Ha.
  - destruct (createAppointment_store c b db) as [Heq|Heq]; rewrite Heq; [eauto|].
    exists a. split; [|done]. rewrite lookup_insert_ne; [done|]. intros <-.
    assert (appointments db !! newId (appointments db) = None)
      by apply not_elem_of_dom, is_fresh.
    congruence.
  - destruct (updateAppointment_store c id0 b db) as [Heq|(a0 & Ha0 & Heq)]; rewrite Heq;
      [eauto|].
    destruct (decide (id0 = id)) as [->|Hne]; [|rewrite lookup_insert_ne by done; eauto].
    rewrite lookup_insert_eq. rewrite Ha in Ha0. injection Ha0 as <-. eauto.
  - destruct (updateStatus_store c id0 b db) as [Heq|(a0 & Ha0 & Heq)]; rewrite Heq;
      [eauto|].
    destruct (decide (id0 = id)) as [->|Hne]; [|rewrite lookup_insert_ne by done; eauto].
    rewrite lookup_insert_eq. rewrite Ha in Ha0. injection Ha0 as <-.
    eexists. split; [done|]. unfold applyStatus. simpl.
    destruct (StatusBody.cancellationReason b) as [r|]; [|done].
    destruct (notEmpty r); [|done]. repeat split; eauto.
  - destruct (cancelAppointment_store c id0 db) as [Heq|(a0 & Ha0 & Heq)]; rewrite Heq;
      [eauto|].
    destruct (decide (id0 = id)) as [->|Hne]; [|rewrite lookup_insert_ne by done; eauto].
    rewrite lookup_insert_eq. rewrite Ha in Ha0. injection Ha0 as <-.
    eexists. split; [done|]. simpl. repeat split; eauto.
Qed.

(** C4, as the handlers have it. In every store the routes can produce,
    each appointment has cancelledAt set exactly when cancelledBy is set,
    and a cancellationReason only when both are.  An accepted booking
    stores an appointment with status "scheduled" and none of the three
    fields; an accepted DELETE stores status "cancelled" with cancelledAt
    the time of the call and cancelledBy the role of the caller, and leaves
    the reason as it was; an accepted status change stores the requested
    status and writes all three fields exactly when a reason comes with the
    request, whatever that status is, and leaves them as they were
    otherwise; and no request to any of the four routes ever clears one
    of the three fields of a stored appointment. *)
Theorem cancellation_stamp_coherent :
  (∀ db, reachable toLocaleDateString db →
     ∀ id a, appointments db !! id = Some a →
       (is_Some (cancelledAt a) ↔ is_Some (cancelledBy a))
       ∧ (is_Some (cancellationReason a) → is_Some (cancelledAt a)))
  ∧ (∀ c b db,
       code (createAppointment toLocaleDateString c b db).1 = 201 →
       ∃ id a,
         appointments db !! id = None
         ∧ appointments (createAppointment toLocaleDateString c b db).2 !! id = Some a
         ∧ status a = "scheduled"
         ∧ cancelledAt a = None ∧ cancelledBy a = None ∧ cancellationReason a = None)
  ∧ (∀ c id db,
       code (cancelAppointment c id db).1 = 200 →
       ∃ a a',
         appointments db !! id = Some a
         ∧ appointments (cancelAppointment c id db).2 !! id = Some a'
         ∧ status a' = "cancelled"
         ∧ cancelledAt a' = Some (now c)
         ∧ cancelledBy a' = Some (role c)
         ∧ cancellationReason a' = cancellationReason a)
  ∧ (∀ c id b db,
       code (updateStatus c id b db).1 = 200 →
       ∃ a a',
         appointments db !! id = Some a
         ∧ appointments (updateStatus c id b db).2 !! id = Some a'
         ∧ status a' = StatusBody.status b
         ∧ match StatusBody.cancellationReason b with
           | Some r =>
               cancellationReason a' = Some r
               ∧ cancelledBy a' = Some (role c)
               ∧ cancelledAt a' = Some (now c)
           | None =>
               cancellationReason a' = cancellationReason a
               ∧ cancelledBy a' = cancelledBy a
               ∧ cancelledAt a' = cancelledAt a
           end)
  ∧ (∀ db db' id a,
       step toLocaleDateString db db' →
       appointments db !! id = Some a →
       ∃ a', appointments db' !! id = Some a'
             ∧ (is_Some (cancelledAt a) → is_Some (cancelledAt a'))
             ∧ (is_Some (cancelledBy a) → is_Some (cancelledBy a'))
             ∧ (is_Some (cancellationReason a) → is_Some (cancellationReason a'))).
Proof.
  split; [exact stamp_invariant|]. split; [|split; [|split]].
  - intros c b db Hok. apply createAppointment_201 in Hok as [_ Hdb].
    exists (newId (appointments db)), (newAppointment b). rewrite Hdb.
    split; [apply not_elem_of_dom, is_fresh|]. split; [apply lookup_insert_eq|]. done.
  - intros c id db Hok. apply cancelAppointment_200 in Hok as (a & Ha & Hdb).
    exists a, (applyCancel c a). rewrite Hdb. split; [done|].
    split; [apply lookup_insert_eq|]. done.
  - intros c id b db Hok. apply updateStatus_200 in Hok as (Hv & a & Ha & Hdb).
    exists a, (applyStatus c b a). rewrite Hdb. split; [done|].
    split; [apply lookup_insert_eq|]. split; [done|]. unfold applyStatus. simpl.
    destruct (StatusBody.cancellationReason b) as [r|] eqn:Hr; [|done].
    by rewrite (validateStatus_reason b r Hv Hr).
  - intros db db' id a Hstep Ha. by apply (step_keeps_stamp db).
Qed.

(** ** Availability *)

Lemma forEach_append {A B} (l : list A) (body : A → list B → Handler (list B))
    (g : A → list B) :
  (∀ x acc db, body x acc db = (Val (acc ++ g x), db)) →
  ∀ acc db, forEach l body acc db = (Val (acc ++ (x ← l; g x)), db).
Proof.
  intros Hbody. induction l as [|x l IH]; intros acc db; simpl.
  - by rewrite app_nil_r.
  - unfold mbind at 1, Handler_bind. rewrite Hbody, IH. by rewrite app_assoc.
Qed.

(** What one candidate contributes to the answer. *)
Lemma slotStep_valid t existing hour minutes acc db :
  slotStep LocalTZA toISOString (Some t) existing hour minutes acc db =
    (Val (acc ++ if hasConflict LocalTZA (Some t) existing hour minutes
                 then [] else [slotAt toISOString t hour minutes]), db).
Proof.
  unfold slotStep. destruct (hasConflict _ _ _ _ _); [|done].
  by rewrite app_nil_r.
Qed.

Lemma bind_filter_fmap {A B} (P : A → Prop) `{!∀ x, Decision (P x)} (f : A → B) (l : list A) :
  (x ← l; if decide (P x) then [f x] else []) = f <$> filter P l.
Proof.
  induction l as [|x l IH]; [done|].
  rewrite bind_cons, filter_cons, IH. by destruct (decide (P x)).
Qed.

Lemma grid_explicit :
  grid = [(10, 0); (10, 30); (11, 0); (11, 30); (12, 0); (12, 30); (13, 0); (13, 30);
          (14, 0); (14, 30); (15, 0); (15, 30); (16, 0); (16, 30); (17, 0); (17, 30)].
Proof. reflexivity. Qed.

Lemma grid_times :
  (λ s, timeString s.1 s.2) <$> grid =
    ["10:00"; "10:30"; "11:00"; "11:30"; "12:00"; "12:30"; "13:00"; "13:30";
     "14:00"; "14:30"; "15:00"; "15:30"; "16:00"; "16:30"; "17:00"; "17:30"].
Proof. reflexivity. Qed.

Lemma elem_of_grid hour minutes :
  (hour, minutes) ∈ grid ↔ (startHour ≤ hour < endHour) ∧ (minutes = 0 ∨ minutes = 30).
Proof.
  clear LocalTZA toLocaleDateString toISOString.
  rewrite grid_explicit. unfold startHour, endHour.
  rewrite !elem_of_cons, elem_of_nil. split.
  - intros H. repeat (destruct H as [H|H]; [injection H as -> ->; lia|]). done.
  - intros [Hh Hm].
    assert (hour = 10 ∨ hour = 11 ∨ hour = 12 ∨ hour = 13 ∨ hour = 14 ∨ hour = 15
            ∨ hour = 16 ∨ hour = 17) as Hcases by lia.
    destruct Hm as [-> | ->]; repeat (destruct Hcases as [->|Hcases]; [tauto|]);
      subst; tauto.
Qed.

(** The loops of the handler, for a valid selected date. *)
Lemma slot_loops_run t existing db :
  forEach (Js.forLoop startHour endHour 1)
    (λ hour, forEach (Js.forLoop 0 60 slotDuration)
               (λ minutes, slotStep LocalTZA toISOString (Some t) existing hour minutes))
    [] db
  = (Val ((λ s, slotAt toISOString t s.1 s.2) <$> keptSlots LocalTZA t existing), db).
Proof.
  set (g := λ s : Z * Z, if hasConflict LocalTZA (Some t) existing s.1 s.2
                         then [] else [slotAt toISOString t s.1 s.2]).
  rewrite (forEach_append _ _ (λ hour, minutes ← Js.forLoop 0 60 slotDuration; g (hour, minutes))).
  - simpl. do 2 f_equal. unfold keptSlots. rewrite <- bind_filter_fmap.
    transitivity (s ← grid; g s).
    + clearbody g. rewrite grid_explicit. cbn. rewrite !app_nil_r, <- !app_assoc. reflexivity.
    + apply list_bind_ext; [|done]. intros s. unfold g.
      destruct (hasConflict _ _ _ _ _); by case_decide.
  - intros hour acc db'.
    apply (forEach_append _ _ (λ minutes, g (hour, minutes))).
    intros minutes acc' db''. apply slotStep_valid.
Qed.

Lemma availability_run c pid t lo hi db q :
  practitioners db !! pid = Some q →
  fails c PractitionerFindById = false →
  fails c AppointmentFind = false →
  Js.setHours LocalTZA (Some t) (Some 0) (Some 0) (Some 0) (Some 0) = Some lo →
  Js.setHours LocalTZA (Some lo) (Some 23) (Some 59) (Some 59) (Some 999) = Some hi →
  availability LocalTZA toISOString c
    {| AvailabilityQuery.practitionerId := Some pid;
       AvailabilityQuery.date := AvailabilityQuery.Instant t |} db
  = ({| code := 200; success := true; message := None;
        data := SlotsData
                  ((λ s, slotAt toISOString hi s.1 s.2)
                   <$> keptSlots LocalTZA hi
                         (find (bookedOn pid lo hi) (appointments db)).*2) |}, db).
Proof.
  intros Hq F1 F2 Hlo Hhi. unfold availability, availabilityBody, route, await.
  cbn [AvailabilityQuery.practitionerId AvailabilityQuery.date].
  rewrite F1, F2, Hlo, Hhi. unfold findBooked, gets, mbind, Handler_bind.
  rewrite Hq. by rewrite slot_loops_run.
Qed.

Lemma lt_before a b : Js.lt a b = true ↔ before a b.
Proof.
  unfold Js.lt, before. destruct a as [x|], b as [y|]; simpl.
  - rewrite bool_decide_eq_true. split; [eauto|]. by intros (? & ? & [= <-] & [= <-] & ?).
  - split; [done|]. by intros (? & ? & _ & ? & _).
  - split; [done|]. by intros (? & ? & ? & _).
  - split; [done|]. by intros (? & ? & ? & _).
Qed.

Lemma hasConflict_overlap sel existing hour minutes :
  hasConflict LocalTZA sel existing hour minutes = true ↔
  ∃ a, a ∈ existing
       ∧ overlap (slotStartOf LocalTZA sel hour minutes) (slotEndOf LocalTZA sel hour minutes)
                 (timeOnDay LocalTZA sel (startTime a)) (timeOnDay LocalTZA sel (endTime a)).
Proof.
  unfold hasConflict, overlap, Js.gt. rewrite existsb_exists.
  split; intros (a & Hin & Ha); exists a.
  - apply list_elem_of_In in Hin. apply andb_true_iff in Ha.
    by rewrite <- !lt_before.
  - rewrite <- !lt_before in Ha. split; [by apply list_elem_of_In|].
    by apply andb_true_iff.
Qed.

Lemma elem_of_booked pid lo hi db a :
  a ∈ (find (bookedOn pid lo hi) (appointments db)).*2 ↔
  ∃ id, appointments db !! id = Some a
        ∧ practitioner a = pid ∧ lo ≤ scheduledDate a ≤ hi ∧ isActive a.
Proof.
  rewrite list_elem_of_fmap. unfold isActive. split.
  - intros ([id a'] & -> & Hin). apply find_elem in Hin as [Hm (Hp & Hd & Hs)].
    apply active_statuses in Hs. eauto.
  - intros (id & Hm & Hp & Hd & Hs). exists (id, a). split; [done|].
    apply find_elem. split; [done|]. unfold bookedOn. by rewrite active_statuses.
Qed.

Lemma timeString_inj_grid s s' :
  s ∈ grid → s' ∈ grid → timeString s.1 s.2 = timeString s'.1 s'.2 → s = s'.
Proof.
  assert (Hall : Forall (λ s, Forall (λ s', timeString s.1 s.2 = timeString s'.1 s'.2
                                            → s = s') grid) grid).
  { apply (bool_decide_unpack _). vm_compute. exact I. }
  intros Hs Hs'. rewrite Forall_forall in Hall. specialize (Hall s Hs).
  rewrite Forall_forall in Hall. exact (Hall s' Hs').
Qed.

(** The answer of the route in terms of the handler's own dates: a
    candidate slot is listed exactly when the handler's interval test finds
    no active appointment of the day against it. *)
Lemma availability_interval_general c pid t lo hi db q :
  practitioners db !! pid = Some q →
  fails c PractitionerFindById = false →
  fails c AppointmentFind = false →
  Js.setHours LocalTZA (Some t) (Some 0) (Some 0) (Some 0) (Some 0) = Some lo →
  Js.setHours LocalTZA (Some lo) (Some 23) (Some 59) (Some 59) (Some 999) = Some hi →
  ∃ slots,
    availability LocalTZA toISOString c
      {| AvailabilityQuery.practitionerId := Some pid;
         AvailabilityQuery.date := AvailabilityQuery.Instant t |} db
    = ({| code := 200; success := true; message := None; data := SlotsData slots |}, db)
    ∧ ∀ hour minutes,
        startHour ≤ hour < endHour →
        minutes = 0 ∨ minutes = 30 →
        ((∃ s, s ∈ slots ∧ time s = timeString hour minutes ∧ available s = true)
         ↔ ∀ id a,
             appointments db !! id = Some a →
             practitioner a = pid →
             lo ≤ scheduledDate a ≤ hi →
             isActive a →
             ¬ overlap (slotStartOf LocalTZA (Some hi) hour minutes)
                       (slotEndOf LocalTZA (Some hi) hour minutes)
                       (timeOnDay LocalTZA (Some hi) (startTime a))
                       (timeOnDay LocalTZA (Some hi) (endTime a))).
Proof.
  intros Hq F1 F2 Hlo Hhi. eexists. split; [by apply (availability_run c pid t lo hi db q)|].
  intros hour minutes Hh Hm.
  assert (Hgrid : (hour, minutes) ∈ grid) by (by apply elem_of_grid).
  set (existing := (find (bookedOn pid lo hi) (appointments db)).*2).
  transitivity (hasConflict LocalTZA (Some hi) existing hour minutes = false).
  - split.
    + intros (slot & Hin & Htime & _). apply list_elem_of_fmap in Hin as (s & -> & Hs).
      apply list_elem_of_filter in Hs as [Hfree Hs].
      by rewrite (timeString_inj_grid s (hour, minutes) Hs Hgrid Htime) in Hfree.
    + intros Hfree. exists (slotAt toISOString hi hour minutes). split; [|done].
      apply list_elem_of_fmap. exists (hour, minutes).
      split; [done|]. by apply list_elem_of_filter.
  - rewrite <- not_true_iff_false, hasConflict_overlap. split.
    + intros Hno id a Hm' Hp Hd Hs Hov. apply Hno. exists a. split; [|done].
      apply elem_of_booked. eauto.
    + intros Hno (a & Hin & Hov). apply elem_of_booked in Hin as (id & Hm' & Hp & Hd & Hs).
      by apply (Hno id a).
Qed.

(** The hour and the minute of an "HH:MM" string, as the handler reads
    them: split at the colon, [parseInt] of either part. *)
Lemma clock_parts h m :
  0 ≤ h < 24 → 0 ≤ m < 60 →
  Js.parseIntU (Js.split ":" (clock h m) !! 0%nat) = Some h
  ∧ Js.parseIntU (Js.split ":" (clock h m) !! 1%nat) = Some m.
Proof.
  clear LocalTZA toLocaleDateString toISOString.
  assert (Hall : Forall (λ h, Forall (λ m,
            Js.parseIntU (Js.split ":" (clock h m) !! 0%nat) = Some h
            ∧ Js.parseIntU (Js.split ":" (clock h m) !! 1%nat) = Some m)
            (seqZ 0 60)) (seqZ 0 24)).
  { apply (bool_decide_unpack _). vm_compute. exact I. }
  intros Hh Hm. rewrite Forall_forall in Hall.
  specialize (Hall h). rewrite Forall_forall in Hall.
  apply Hall; apply elem_of_seqZ; lia.
Qed.

Lemma timeString_clock hour minutes :
  10 ≤ hour < 18 → minutes = 0 ∨ minutes = 30 →
  timeString hour minutes = clock hour minutes.
Proof.
  clear LocalTZA toLocaleDateString toISOString.
  intros Hh Hm.
  assert (hour = 10 ∨ hour = 11 ∨ hour = 12 ∨ hour = 13 ∨ hour = 14 ∨ hour = 15
          ∨ hour = 16 ∨ hour = 17) as Hcases by lia.
  destruct Hm as [-> | ->];
    repeat (destruct Hcases as [->|Hcases]; [reflexivity|]); subst; reflexivity.
Qed.

(** The two bounds of the selected day: local midnight and the last
    millisecond before the next one. *)
Lemma day_bounds t lo hi :
  Js.setHours LocalTZA (Some t) (Some 0) (Some 0) (Some 0) (Some 0) = Some lo →
  Js.setHours LocalTZA (Some lo) (Some 23) (Some 59) (Some 59) (Some 999) = Some hi →
  lo = (t + LocalTZA) / 86400000 * 86400000 - LocalTZA
  ∧ hi = lo + 86399999
  ∧ Z.abs lo ≤ 8640000000000000
  ∧ Z.abs hi ≤ 8640000000000000.
Proof.
  unfold Js.setHours, Js.MakeTime, Js.TimeClip, Js.Day, Js.msPerDay, Js.msPerHour,
    Js.msPerMinute, Js.msPerSecond. simpl.
  intros Hlo Hhi.
  destruct (Z.abs _ <=? _) eqn:Elo in Hlo; [|done]. injection Hlo as Hlo.
  destruct (Z.abs _ <=? _) eqn:Ehi in Hhi; [|done]. injection Hhi as Hhi.
  apply Z.leb_le in Elo, Ehi. rewrite Hlo in Elo. rewrite Hhi in Ehi.
  assert (Hday : (lo + LocalTZA) / 86400000 = (t + LocalTZA) / 86400000).
  { replace (lo + LocalTZA) with ((t + LocalTZA) / 86400000 * 86400000) by lia.
    by apply Z.div_mul. }
  rewrite Hday in Hhi. split; [lia|]. split; [lia|]. split; [lia|lia].
Qed.

(** An instant of the selected day, set from its last millisecond. *)
Lemma setHours_on_day t lo hi h m :
  Js.setHours LocalTZA (Some t) (Some 0) (Some 0) (Some 0) (Some 0) = Some lo →
  Js.setHours LocalTZA (Some lo) (Some 23) (Some 59) (Some 59) (Some 999) = Some hi →
  0 ≤ h * 3600000 + m * 60000 ≤ 86399999 →
  Js.setHours LocalTZA (Some hi) (Some h) (Some m) (Some 0) (Some 0)
  = Some (lo + h * 3600000 + m * 60000).
Proof.
  intros Hlo Hhi Hrange.
  destruct (day_bounds t lo hi Hlo Hhi) as (Elo & Ehi & Blo & Bhi).
  unfold Js.setHours, Js.MakeTime, Js.TimeClip, Js.Day, Js.msPerDay, Js.msPerHour,
    Js.msPerMinute, Js.msPerSecond. simpl.
  assert (Hday : (hi + LocalTZA) / 86400000 = (t + LocalTZA) / 86400000).
  { replace (hi + LocalTZA) with (86399999 + (t + LocalTZA) / 86400000 * 86400000) by lia.
    rewrite Z.div_add by lia. replace (86399999 / 86400000) with 0 by reflexivity. lia. }
  rewrite Hday. rewrite (proj2 (Z.leb_le _ _)); [f_equal; lia|lia].
Qed.

(** C2. For a practitioner that exists and a valid date, the selected day
    runs from local midnight [lo] to its last millisecond [hi], an "HH:MM"
    time of an appointment is the instant HH hours and MM minutes after
    [lo], and each candidate slot of the grid (hour 10 to 17, minute 0 or
    30) is in the answer, tagged available, exactly when the interval from
    [lo + hour h + minutes min] to 30 minutes later overlaps no appointment
    of that practitioner which is scheduled or confirmed on the selected
    day, overlap being the interval test
    [slotStart < apptEnd AND slotEnd > apptStart]. *)
Theorem availability_matches_interval_test c pid t lo hi db q :
  practitioners db !! pid = Some q →
  fails c PractitionerFindById = false →
  fails c AppointmentFind = false →
  Js.setHours LocalTZA (Some t) (Some 0) (Some 0) (Some 0) (Some 0) = Some lo →
  Js.setHours LocalTZA (Some lo) (Some 23) (Some 59) (Some 59) (Some 999) = Some hi →
  (lo = (t + LocalTZA) / 86400000 * 86400000 - LocalTZA ∧ hi = lo + 86399999)
  ∧ (∀ h m, 0 ≤ h < 24 → 0 ≤ m < 60 →
       timeOnDay LocalTZA (Some hi) (clock h m) = Some (lo + h * 3600000 + m * 60000))
  ∧ ∃ slots,
      availability LocalTZA toISOString c
        {| AvailabilityQuery.practitionerId := Some pid;
           AvailabilityQuery.date := AvailabilityQuery.Instant t |} db
      = ({| code := 200; success := true; message := None; data := SlotsData slots |}, db)
      ∧ ∀ hour minutes,
          10 ≤ hour < 18 →
          minutes = 0 ∨ minutes = 30 →
          ((∃ s, s ∈ slots ∧ time s = clock hour minutes ∧ available s = true)
           ↔ ∀ id a apptStart apptEnd,
               appointments db !! id = Some a →
               practitioner a = pid →
               lo ≤ scheduledDate a ≤ hi →
               isActive a →
               timeOnDay LocalTZA (Some hi) (startTime a) = Some apptStart →
               timeOnDay LocalTZA (Some hi) (endTime a) = Some apptEnd →
               ¬ (lo + hour * 3600000 + minutes * 60000 < apptEnd
                  ∧ lo + hour * 3600000 + minutes * 60000 + 1800000 > apptStart)).
Proof.
  intros Hq F1 F2 Hlo Hhi.
  destruct (day_bounds t lo hi Hlo Hhi) as (Elo & Ehi & Blo & Bhi).
  split; [done|]. split.
  { intros h m Hh Hm. unfold timeOnDay.
    destruct (clock_parts h m Hh Hm) as [-> ->].
    apply (setHours_on_day t); [done..|lia]. }
  destruct (availability_interval_general c pid t lo hi db q Hq F1 F2 Hlo Hhi)
    as (slots & Hrun & Hspec).
  exists slots. split; [done|]. intros hour minutes Hh Hm.
  rewrite <- (timeString_clock hour minutes Hh Hm).
  rewrite (Hspec hour minutes) by done.
  assert (Hstart : slotStartOf LocalTZA (Some hi) hour minutes
                   = Some (lo + hour * 3600000 + minutes * 60000)).
  { apply (setHours_on_day t); [done..|lia]. }
  assert (Hend : slotEndOf LocalTZA (Some hi) hour minutes
                 = Some (lo + hour * 3600000 + minutes * 60000 + 1800000)).
  { unfold slotEndOf. rewrite Hstart. unfold Js.plus, slotDuration, Js.TimeClip. simpl.
    rewrite (proj2 (Z.leb_le _ _)); [done|]. lia. }
  rewrite Hstart, Hend. unfold overlap, before. split.
  - intros Hfree id a apptStart apptEnd Hm' Hp Hd Hact Hs He [Hlt Hgt].
    apply (Hfree id a Hm' Hp Hd Hact). rewrite Hs, He. split.
    + eexists _, _. split; [done|]. split; [done|]. done.
    + eexists _, _. split; [done|]. split; [done|]. lia.
  - intros Hfree id a Hm' Hp Hd Hact [(x & y & Hx & Hy & Hlt) (x' & y' & Hx' & Hy' & Hlt')].
    injection Hx as <-. injection Hy' as <-.
    apply (Hfree id a x' y Hm' Hp Hd Hact Hx' Hy). lia.
Qed.

Lemma StronglySorted_filter {A} (R : relation A) (P : A → Prop) `{!∀ x, Decision (P x)} l :
  StronglySorted R l → StronglySorted R (filter P l).
Proof.
  induction 1 as [|x l Hl IH Hx]; [constructor|].
  rewrite filter_cons. case_decide; [|done]. constructor; [done|].
  rewrite Forall_forall in Hx. apply Forall_forall. intros y Hy.
  apply list_elem_of_filter in Hy as [_ Hy]. by apply Hx.
Qed.

Lemma grid_chronological :
  StronglySorted (λ s s', minuteOfDay s < minuteOfDay s') grid.
Proof.
  rewrite grid_explicit. unfold minuteOfDay.
  repeat (constructor; [|by repeat (constructor; [simpl; lia|])]). constructor.
Qed.

(** C6, as the handler has it. For a practitioner that exists and a valid
    date the answer is a finite list drawn from the fixed grid of the 16
    candidate slots 10:00, 10:30, ..., 17:30: it consists of the candidates
    that conflict with no existing appointment, in the order of the grid,
    which is chronological, and each listed slot is tagged available; a
    candidate that is not available is left out of the list. *)
Theorem availability_lists_open_slots c pid t lo hi db q :
  practitioners db !! pid = Some q →
  fails c PractitionerFindById = false →
  fails c AppointmentFind = false →
  Js.setHours LocalTZA (Some t) (Some 0) (Some 0) (Some 0) (Some 0) = Some lo →
  Js.setHours LocalTZA (Some lo) (Some 23) (Some 59) (Some 59) (Some 999) = Some hi →
  ∃ kept,
    availability LocalTZA toISOString c
      {| AvailabilityQuery.practitionerId := Some pid;
         AvailabilityQuery.date := AvailabilityQuery.Instant t |} db
    = ({| code := 200; success := true; message := None;
          data := SlotsData ((λ s, slotAt toISOString hi s.1 s.2) <$> kept) |}, db)
    ∧ kept `sublist_of` grid
    ∧ (∀ s, s ∈ kept ↔
            s ∈ grid
            ∧ hasConflict LocalTZA (Some hi)
                (find (bookedOn pid lo hi) (appointments db)).*2 s.1 s.2 = false)
    ∧ StronglySorted (λ s s', minuteOfDay s < minuteOfDay s') kept
    ∧ Forall (λ slot, available slot = true) ((λ s, slotAt toISOString hi s.1 s.2) <$> kept)
    ∧ (λ s, timeString s.1 s.2) <$> grid =
        ["10:00"; "10:30"; "11:00"; "11:30"; "12:00"; "12:30"; "13:00"; "13:30";
         "14:00"; "14:30"; "15:00"; "15:30"; "16:00"; "16:30"; "17:00"; "17:30"].
Proof.
  intros Hq F1 F2 Hlo Hhi.
  exists (keptSlots LocalTZA hi (find (bookedOn pid lo hi) (appointments db)).*2).
  split; [by apply (availability_run c pid t lo hi db q)|].
  split; [apply sublist_filter|].
  split; [intros s; unfold keptSlots; rewrite list_elem_of_filter;
          split; intros [H1 H2]; split; assumption|].
  split; [apply StronglySorted_filter, grid_chronological|].
  split; [|exact grid_times].
  apply Forall_fmap, Forall_forall. done.
Qed.

(** ** The wallet *)

(** *** Binary64 subtraction *)

Lemma digits2_pos_bounds m :
  2 ^ (Zpos (digits2_pos m) - 1) ≤ Zpos m < 2 ^ Zpos (digits2_pos m).
Proof.
  clear. induction m as [m IH|m IH|]; simpl digits2_pos; [| |by vm_compute].
  all: rewrite Pos2Z.inj_succ; replace (Z.succ (Zpos (digits2_pos m)) - 1)
         with (Z.succ (Zpos (digits2_pos m) - 1)) by lia.
  all: rewrite !Z.pow_succ_r by lia; lia.
Qed.

Lemma iter_xO m d : Zpos (Pos.iter xO m d) = Zpos m * 2 ^ Zpos d.
Proof.
  clear. induction d as [|d IH] using Pos.peano_ind.
  - simpl. lia.
  - rewrite Pos.iter_succ, Pos2Z.inj_succ, Z.pow_succ_r by lia.
    rewrite Pos2Z.inj_xO, IH. lia.
Qed.

Lemma iter_pos_invariant {A} (P : A → Prop) (f : A → A) p x :
  (∀ y, P y → P (f y)) → P x → P (SpecFloat.iter_pos f p x).
Proof. intros Hf. revert x. induction p; simpl; auto. Qed.

Lemma shr_1_nonneg mrs : 0 ≤ shr_m mrs → 0 ≤ shr_m (shr_1 mrs).
Proof. clear. destruct mrs as [[|[]|[]] r s]; simpl; lia. Qed.

Lemma shr_fexp_nonneg prec emax m e l :
  0 ≤ m → 0 ≤ shr_m (shr_fexp prec emax m e l).1.
Proof.
  intros Hm. unfold shr_fexp, shr.
  assert (0 ≤ shr_m (shr_record_of_loc m l)) by (by destruct l as [|[]]).
  destruct (_ - e); simpl; [done| |done].
  by apply (iter_pos_invariant (λ r, 0 ≤ shr_m r)); [apply shr_1_nonneg|].
Qed.

Lemma round_nearest_even_nonneg m l : 0 ≤ m → 0 ≤ round_nearest_even m l.
Proof.
  clear. destruct l as [|[]]; simpl; [done| |done|lia]. destruct (Z.even m); lia.
Qed.

(** Rounding a mantissa that is not negative, with the sign bit clear,
    gives +0, a positive Number or +Infinity, never NaN. *)
Lemma binary_round_aux_nonneg prec emax m e l :
  0 ≤ m → SFleb (S754_zero false) (binary_round_aux prec emax false m e l) = true.
Proof.
  intros Hm. unfold binary_round_aux.
  pose proof (shr_fexp_nonneg prec emax m e l Hm) as H1.
  destruct (shr_fexp prec emax m e l) as [mrs' e']. simpl in H1.
  pose proof (shr_fexp_nonneg prec emax _ e' loc_Exact
                (round_nearest_even_nonneg _ (loc_of_shr_record mrs') H1)) as H2.
  destruct (shr_fexp prec emax _ e' loc_Exact) as [mrs'' e'']. simpl in H2.
  destruct (shr_m mrs''); [done| |clear -H2; lia]. by destruct (e'' <=? _).
Qed.

Lemma binary_normalize_nonneg prec emax m e :
  0 ≤ m → SFleb (S754_zero false) (binary_normalize prec emax m e false) = true.
Proof.
  intros Hm. destruct m as [|m|m]; [done| |clear -Hm; lia]. simpl. unfold binary_round.
  destruct (shl_align _ _ _). by apply binary_round_aux_nonneg.
Qed.

(** The mantissa of a binary64 value has at most 53 bits, and exactly 53
    above the smallest exponent. *)
Lemma valid_binary_digits s m e :
  valid_binary 53 1024 (S754_finite s m e) = true →
  -1074 ≤ e ∧ Zpos (digits2_pos m) ≤ 53 ∧ (-1074 < e → Zpos (digits2_pos m) = 53).
Proof.
  clear. unfold valid_binary, bounded, canonical_mantissa, fexp, emin.
  intros [H _]%andb_prop. apply Z.eqb_eq in H. lia.
Qed.

(** [x - y] for a positive finite [y] that [x] is not smaller than: the
    rounded difference is +0, positive or +Infinity. *)
Lemma SFsub_nonneg x y :
  valid_binary 53 1024 x = true →
  valid_binary 53 1024 y = true →
  SFltb (S754_zero false) y = true →
  SFltb x y = false →
  x ≠ S754_nan → y ≠ S754_infinity false →
  SFleb (S754_zero false) (SFsub 53 1024 x y) = true.
Proof.
  intros Hx Hy Hpos Hlt Hnan Hinf.
  destruct y as [sy|sy| |sy my ey]; try done; [by destruct sy|].
  destruct sy; [done|].
  destruct x as [sx|sx| |sx mx ex]; try done; try (by destruct sx).
  destruct sx; [done|].
  unfold SFltb, SFcompare in Hlt. unfold SFsub.
  apply binary_normalize_nonneg. unfold cond_Zopp, shl_align.
  apply valid_binary_digits in Hx as (Hex & Hdx & Hnx), Hy as (Hey & Hdy & Hny).
  pose proof (digits2_pos_bounds mx) as Bx. pose proof (digits2_pos_bounds my) as By.
  clear LocalTZA toLocaleDateString toISOString.
  destruct (Z.compare_spec ex ey) as [->|Hlt'|Hgt]; [|done|].
  - rewrite Z.min_id, Z.sub_diag. simpl.
    destruct (Pos.compare_cont Eq mx my) eqn:Hc; [| done |].
    + apply Pos.compare_eq in Hc. lia.
    + apply Pos.compare_gt_iff in Hc. lia.
  - rewrite Z.min_r by lia. rewrite Z.sub_diag.
    destruct (ey - ex) as [|d|d] eqn:Hd; [lia|lia|]. simpl.
    rewrite iter_xO. rewrite Hnx in Bx by lia.
    assert (2 ^ 1 ≤ 2 ^ Zpos d) by (apply Z.pow_le_mono_r; lia).
    assert (Zpos my < 2 ^ 53) by
      (eapply Z.lt_le_trans; [apply By|apply Z.pow_le_mono_r; lia]).
    change (2 ^ (53 - 1)) with 4503599627370496 in Bx.
    change (2 ^ 53) with 9007199254740992 in *. change (2 ^ 1) with 2 in *. nia.
Qed.

(** *** POST /wallet/deduct *)

(** The validators pass exactly for a finite amount of at least 1 with a
    reason that is not empty. *)
Lemma validateDeduct_nil b :
  validateDeduct b = []
  ↔ SFleb (S754_finite false 4503599627370496 (-52)) (DeductBody.amount b) = true
    ∧ DeductBody.amount b ≠ S754_infinity false
    ∧ DeductBody.reason b ≠ "".
Proof.
  unfold validateDeduct, check, isFloat.
  change (Js.ofZ 1) with (S754_finite false 4503599627370496 (-52)).
  split.
  - intros [H1 H2]%app_eq_nil.
    destruct (Js.isFinite _ && SFleb _ _) eqn:E; [|done].
    apply andb_prop in E as [Hf Hle].
    destruct (notEmpty _) eqn:N; [|done].
    split; [done|]. split; [intros Hi; by rewrite Hi in Hf|].
    intros Hr. by rewrite Hr in N.
  - intros (Hle & Hi & Hr). rewrite Hle, (notEmpty_true _ Hr), andb_true_r.
    replace (Js.isFinite (DeductBody.amount b)) with true; [done|].
    revert Hle Hi. by destruct (DeductBody.amount b) as [|[]| |].
Qed.

(** [walletBalance || 0]: an absent balance, NaN, +0 and -0 read as +0. *)
Lemma balanceOf_cases u :
  balanceOf u = match walletBalance u with
                | Some (S754_finite s m e) => S754_finite s m e
                | Some (S754_infinity s) => S754_infinity s
                | _ => S754_zero false
                end.
Proof. unfold balanceOf. by destruct (walletBalance u) as [[| | |]|]. Qed.

Lemma deduct_run c b db u :
  validateDeduct b = [] →
  users db !! user c = Some u →
  fails c UserFindById = false →
  fails c UserSave = false →
  deduct c b db =
    if SFltb (balanceOf u) (DeductBody.amount b)
    then (failure 400 "Insufficient wallet balance", db)
    else ({| code := 200; success := true;
             message := Some "Amount deducted successfully";
             data := WalletData (SFsub 53 1024 (balanceOf u) (DeductBody.amount b))
                                (DeductBody.amount b) (DeductBody.reason b) |},
          withUsers <[user c := {| walletBalance :=
             Some (SFsub 53 1024 (balanceOf u) (DeductBody.amount b)) |}]> db).
Proof.
  intros Hv Hu F1 F2. unfold deduct, deductBody. rewrite Hv. simpl.
  run_handler. rewrite F1, F2, Hu. unfold Js.less, Js.minus. by destruct (SFltb _ _).
Qed.

(** The balance a deduction reads is a binary64 value when the stored one
    is, and never NaN. *)
Lemma balanceOf_valid u :
  match walletBalance u with
  | Some x => valid_binary 53 1024 x = true
  | None => True
  end →
  valid_binary 53 1024 (balanceOf u) = true ∧ balanceOf u ≠ S754_nan.
Proof. rewrite balanceOf_cases. by destruct (walletBalance u) as [[| | |]|]. Qed.

(** An amount that passes the validators is above zero. *)
Lemma amount_positive x :
  SFleb (S754_finite false 4503599627370496 (-52)) x = true →
  SFltb (S754_zero false) x = true.
Proof. by destruct x as [|[]| |[]]. Qed.

(** C10, as the handler has it. For a user that exists, with the balance
    and the amount binary64 numbers and the store calls succeeding, POST
    /wallet/deduct reads the balance as the stored walletBalance, or +0
    when that is absent, NaN or a zero.  A request whose amount is not a
    finite number of at least 1, or whose reason is empty, is answered 400
    "Validation errors" and changes nothing, whatever the balance.  A
    valid request whose amount exceeds the balance is answered 400
    "Insufficient wallet balance" and changes nothing.  Every other valid
    request is answered 200 and stores, and returns as newBalance, the
    binary64 difference of the balance and the amount (rounded to nearest,
    ties to even), which is a number and not below zero. *)
Theorem deduct_never_overdraws c b db u :
  users db !! user c = Some u →
  fails c UserFindById = false →
  fails c UserSave = false →
  match walletBalance u with
  | Some x => valid_binary 53 1024 x = true
  | None => True
  end →
  valid_binary 53 1024 (DeductBody.amount b) = true →
  let amount := DeductBody.amount b in
  let balance :=
    match walletBalance u with
    | Some (S754_finite s m e) => S754_finite s m e
    | Some (S754_infinity s) => S754_infinity s
    | _ => S754_zero false
    end in
  let valid :=
    SFleb (S754_finite false 4503599627370496 (-52)) amount = true
    ∧ amount ≠ S754_infinity false
    ∧ DeductBody.reason b ≠ "" in
  (¬ valid →
     ∃ fields,
       deduct c b db
       = ({| code := 400; success := false; message := Some "Validation errors";
             data := ValidationErrors fields |}, db))
  ∧ (valid → SFltb balance amount = true →
     deduct c b db
     = ({| code := 400; success := false;
           message := Some "Insufficient wallet balance"; data := NoData |}, db))
  ∧ (valid → SFltb balance amount = false →
     deduct c b db
     = ({| code := 200; success := true;
           message := Some "Amount deducted successfully";
           data := WalletData (SFsub 53 1024 balance amount) amount (DeductBody.reason b) |},
        withUsers
          <[user c := {| walletBalance := Some (SFsub 53 1024 balance amount) |}]> db)
     ∧ SFleb (S754_zero false) (SFsub 53 1024 balance amount) = true).
Proof.
  intros Hu F1 F2 Hvb Hva amount balance valid. subst amount balance valid.
  rewrite <- (balanceOf_cases u), <- (validateDeduct_nil b).
  split; [|split].
  - intros Hn. exists (validateDeduct b). unfold deduct, deductBody.
    rewrite bool_decide_eq_false_2 by done. simpl. by run_handler.
  - intros Hv Hlt. rewrite (deduct_run c b db u) by done. by rewrite Hlt.
  - intros Hv Hlt. rewrite (deduct_run c b db u) by done. rewrite Hlt. split; [done|].
    destruct (balanceOf_valid u Hvb) as [Hb Hnan].
    apply validateDeduct_nil in Hv as (Hle & Hinf & _).
    apply SFsub_nonneg; [done|done|by apply amount_positive|done|done|done].
Qed.

(** X18. Whatever happens, faults included, a deduction of a binary64
    amount leaves the users as they were, or replaces the caller's
    binary64 balance by a number that is not below zero. *)
Theorem deduct_balance_sound c b db :
  valid_binary 53 1024 (DeductBody.amount b) = true →
  match users db !! user c ≫= walletBalance with
  | Some x => valid_binary 53 1024 x = true
  | None => True
  end →
  users (deduct c b db).2 = users db
  ∨ ∃ x, users (deduct c b db).2 = <[user c := {| walletBalance := Some x |}]> (users db)
         ∧ SFleb (S754_zero false) x = true.
Proof.
  intros Hva Hvb.
  assert (Hread : ∀ u, users db !! user c = Some u →
            valid_binary 53 1024 (balanceOf u) = true ∧ balanceOf u ≠ S754_nan).
  { intros u Hu. rewrite Hu in Hvb. by apply balanceOf_valid. }
  clear Hvb. unfold deduct, deductBody. run_handler.
  repeat (case_match; simpl in *; simplify_eq; auto).
  right. eexists. split; [done|].
  match goal with H : negb (bool_decide _) = false |- _ =>
    apply negb_false_iff, bool_decide_eq_true, validateDeduct_nil in H
      as (Hle & Hinf & _) end.
  match goal with H : users _ !! _ = Some ?u |- _ =>
    destruct (Hread u H) as [Hb Hnan] end.
  apply SFsub_nonneg; [done|done|by apply amount_positive|done|done|done].
Qed.

End Properties.

(** ** Worked examples *)

(** Scenario A: a second booking of practitioner 2 at 10:00 on the same
    day meets the guard. *)
Lemma conflict_guard_exact_start_witness :
  validateCreate (Clinic.booking "10:00" "10:30") = []
  ∧ ((createAppointment Clinic.localeDate Clinic.admin
        (Clinic.booking "10:00" "10:30") Clinic.booked).1 = slotConflict
     ↔ ∃ id a, appointments Clinic.booked !! id = Some a
               ∧ practitioner a = 2%nat
               ∧ scheduledDate a = Clinic.june1
               ∧ startTime a = "10:00"
               ∧ isActive a)
  ∧ ((∀ id a, appointments Clinic.booked !! id = Some a →
              practitioner a = 2%nat →
              scheduledDate a = Clinic.june1 →
              isActive a →
              startTime a ≠ "10:00") →
     (createAppointment Clinic.localeDate Clinic.admin
        (Clinic.booking "10:00" "10:30") Clinic.booked).1 ≠ slotConflict).
Proof.
  split; [reflexivity|].
  apply (conflict_guard_exact_start Clinic.localeDate Clinic.admin
           (Clinic.booking "10:00" "10:30") Clinic.booked
           {| userId := 7%nat |} {| practitionerUserId := 8%nat |});
    vm_compute; reflexivity.
Defined.

(** A booking 10:15-10:45 overlaps the one at 10:00-10:30 and is accepted. *)
Example overlapping_booking_accepted :
  code (createAppointment Clinic.localeDate Clinic.admin
          (Clinic.booking "10:15" "10:45") Clinic.booked).1 = 201.
Proof. vm_compute. reflexivity. Qed.

Lemma reminders_of_created_witness :
  code (createAppointment Clinic.localeDate Clinic.admin
          (Clinic.booking "10:00" "10:30") Clinic.empty).1 = 201
  ∧ ∃ id a,
      data (createAppointment Clinic.localeDate Clinic.admin
              (Clinic.booking "10:00" "10:30") Clinic.empty).1 = AppointmentData id a
      ∧ appointments Clinic.booked !! id = Some a
      ∧ reminders a =
          [ {| type := "email"; scheduledTime := Clinic.june1 - 86400000 |};
            {| type := "sms"; scheduledTime := Clinic.june1 - 7200000 |} ].
Proof.
  split; [reflexivity|].
  destruct (reminders_of_created Clinic.localeDate Clinic.admin
              (Clinic.booking "10:00" "10:30") Clinic.empty eq_refl)
    as (id & a & Hdata & Hstored & Hrem & _).
  exists id, a. split; [exact Hdata|]. split; [exact Hstored|exact Hrem].
Defined.

Lemma booking_survives_notification_failure_witness :
  fails Clinic.gatewayDown SendAppointmentConfirmation = true
  ∧ appointments (createAppointment Clinic.localeDate Clinic.gatewayDown
                    (Clinic.booking "10:00" "10:30") Clinic.empty).2 !! 0%nat
    = Some (newAppointment (Clinic.booking "10:00" "10:30"))
  ∧ (createAppointment Clinic.localeDate Clinic.gatewayDown
       (Clinic.booking "10:00" "10:30") Clinic.empty).1
    = created 0%nat (newAppointment (Clinic.booking "10:00" "10:30")).
Proof.
  split; [reflexivity|].
  destruct (booking_survives_notification_failure Clinic.localeDate Clinic.gatewayDown
              (Clinic.booking "10:00" "10:30") Clinic.empty
              {| userId := 7%nat |} {| practitionerUserId := 8%nat |}
              eq_refl eq_refl eq_refl eq_refl eq_refl eq_refl eq_refl eq_refl)
    as (Hstored & Hok & _).
  split; [exact Hstored|exact (Hok eq_refl eq_refl)].
Defined.

(** The appointment is written, the notification record cannot be
    persisted, and the booking is answered 500. *)
Lemma notification_record_failure_fails_booking :
  fails Clinic.notificationsDown AppointmentSave = false
  ∧ appointments (createAppointment Clinic.localeDate Clinic.notificationsDown
                    (Clinic.booking "10:00" "10:30") Clinic.empty).2 !! 0%nat
    = Some (newAppointment (Clinic.booking "10:00" "10:30"))
  ∧ code (createAppointment Clinic.localeDate Clinic.notificationsDown
            (Clinic.booking "10:00" "10:30") Clinic.empty).1 = 500
  ∧ success (createAppointment Clinic.localeDate Clinic.notificationsDown
            (Clinic.booking "10:00" "10:30") Clinic.empty).1 = false.
Proof. vm_compute. done. Qed.

(** The 11:00 appointment is moved onto the 10:00 one: the practitioner is
    now booked twice, on the same day at the same start time. *)
Lemma update_frame_without_guard_witness :
  ∃ a0 a1,
    code (updateAppointment Clinic.admin 1%nat (Clinic.moveTo "10:00" "10:30")
            Clinic.bookedTwice).1 = 200
    ∧ appointments (updateAppointment Clinic.admin 1%nat (Clinic.moveTo "10:00" "10:30")
                      Clinic.bookedTwice).2 !! 0%nat = Some a0
    ∧ appointments (updateAppointment Clinic.admin 1%nat (Clinic.moveTo "10:00" "10:30")
                      Clinic.bookedTwice).2 !! 1%nat = Some a1
    ∧ isActive a0 ∧ isActive a1
    ∧ practitioner a0 = practitioner a1
    ∧ scheduledDate a0 = scheduledDate a1
    ∧ startTime a0 = startTime a1.
Proof.
  assert (Hperm : permitted Clinic.admin Clinic.bookedTwice
                    (newAppointment (Clinic.booking "11:00" "11:30")))
    by (intros Hrole; discriminate Hrole).
  destruct (update_frame_without_guard Clinic.admin 1%nat (Clinic.moveTo "10:00" "10:30")
              Clinic.bookedTwice (newAppointment (Clinic.booking "11:00" "11:30"))
              eq_refl Hperm eq_refl eq_refl eq_refl)
    as (a' & Hr & Hstored & (Hdate & Hstart & _) & (_ & Hpract & _ & _ & Hstatus & _) & Hother).
  exists (newAppointment (Clinic.booking "10:00" "10:30")), a'.
  split; [by rewrite Hr|]. split; [by rewrite Hother|]. split; [exact Hstored|].
  split; [by left|]. split; [left; by rewrite Hstatus|].
  split; [by rewrite Hpract|]. split; [by rewrite Hdate|]. by rewrite Hstart.
Defined.

(** A cancelled appointment is set to "completed", with a reason. *)
Lemma updateStatus_no_transition_guard_witness :
  ∃ a a',
    appointments Clinic.cancelledByPatient !! 0%nat = Some a
    ∧ status a = "cancelled"
    ∧ code (updateStatus Clinic.admin 0%nat Clinic.completedWithReason
              Clinic.cancelledByPatient).1 = 200
    ∧ appointments (updateStatus Clinic.admin 0%nat Clinic.completedWithReason
                      Clinic.cancelledByPatient).2 !! 0%nat = Some a'
    ∧ status a' = "completed"
    ∧ cancellationReason a' = Some "done"
    ∧ cancelledBy a' = Some "admin"
    ∧ cancelledAt a' = Some (now Clinic.admin).
Proof.
  assert (Hreason : ∀ r, StatusBody.cancellationReason Clinic.completedWithReason = Some r
                         → r ≠ "")
    by (intros r [= <-]; discriminate).
  assert (Hstatus : StatusBody.status Clinic.completedWithReason ∈ statusValues)
    by (unfold statusValues; simpl; rewrite !elem_of_cons; auto 10).
  destruct (updateStatus_no_transition_guard Clinic.admin 0%nat Clinic.completedWithReason
              Clinic.cancelledByPatient
              (applyCancel Clinic.patientUser (newAppointment (Clinic.booking "10:00" "10:30")))
              eq_refl Hstatus Hreason eq_refl eq_refl eq_refl)
    as (a' & Hr & Hstored & Hst & Hmeta & _).
  destruct (Hmeta "done" eq_refl) as (Hwhy & Hby & Hat).
  eexists _, a'. split; [reflexivity|]. split; [reflexivity|].
  split; [by rewrite Hr|]. split; [exact Hstored|]. split; [exact Hst|].
  split; [exact Hwhy|]. split; [exact Hby|exact Hat].
Defined.

Lemma cancel_again_restamps_witness :
  code (cancelAppointment Clinic.admin 0%nat Clinic.cancelledByPatient).1 = 200
  ∧ ∃ a',
      appointments (cancelAppointment Clinic.admin 0%nat Clinic.cancelledByPatient).2 !! 0%nat
        = Some a'
      ∧ status a' = "cancelled"
      ∧ cancelledBy a' = Some "admin"
      ∧ cancelledAt a' = Some (now Clinic.admin).
Proof.
  assert (Hperm : permitted Clinic.admin Clinic.cancelledByPatient
            (applyCancel Clinic.patientUser (newAppointment (Clinic.booking "10:00" "10:30"))))
    by (intros Hrole; discriminate Hrole).
  destruct (cancel_again_restamps Clinic.admin 0%nat Clinic.cancelledByPatient
              (applyCancel Clinic.patientUser (newAppointment (Clinic.booking "10:00" "10:30")))
              eq_refl eq_refl Hperm eq_refl eq_refl eq_refl)
    as (Hr & a' & Hstored & Hst & Hby & Hat & _).
  split; [by rewrite Hr|]. exists a'.
  split; [exact Hstored|]. split; [exact Hst|]. split; [exact Hby|exact Hat].
Defined.

(** The patient cancelled; the administrator cancels again: the request is
    answered 200, and cancelledBy and cancelledAt of the stored appointment
    are no longer what they were. *)
Lemma cancel_again_changes_stamp :
  ∃ a a',
    appointments Clinic.cancelledByPatient !! 0%nat = Some a
    ∧ status a = "cancelled"
    ∧ code (cancelAppointment Clinic.admin 0%nat Clinic.cancelledByPatient).1 = 200
    ∧ appointments (cancelAppointment Clinic.admin 0%nat Clinic.cancelledByPatient).2 !! 0%nat
      = Some a'
    ∧ cancelledBy a = Some "patient" ∧ cancelledBy a' = Some "admin"
    ∧ cancelledAt a ≠ cancelledAt a'
    ∧ a' ≠ a.
Proof.
  exists (applyCancel Clinic.patientUser (newAppointment (Clinic.booking "10:00" "10:30"))),
    (applyCancel Clinic.admin
       (applyCancel Clinic.patientUser (newAppointment (Clinic.booking "10:00" "10:30")))).
  repeat split; try reflexivity; discriminate.
Qed.

Lemma completed_reachable : reachable Clinic.localeDate Clinic.completed.
Proof.
  apply (reachable_step _ Clinic.booked).
  - apply (reachable_step _ Clinic.empty).
    + by apply reachable_init.
    + apply (step_create Clinic.localeDate Clinic.admin (Clinic.booking "10:00" "10:30")).
  - apply (step_status Clinic.localeDate Clinic.admin 0%nat Clinic.completedWithReason).
Defined.

Lemma cancellation_stamp_coherent_witness :
  ∃ a, appointments Clinic.completed !! 0%nat = Some a
       ∧ (is_Some (cancelledAt a) ↔ is_Some (cancelledBy a))
       ∧ (is_Some (cancellationReason a) → is_Some (cancelledAt a))
       ∧ status a = "completed"
       ∧ cancellationReason a = Some "done"
       ∧ cancelledBy a = Some "admin"
       ∧ cancelledAt a = Some (now Clinic.admin).
Proof.
  destruct (cancellation_stamp_coherent Clinic.localeDate)
    as (Hinvariant & _ & _ & Hstatus & _).
  destruct (Hstatus Clinic.admin 0%nat Clinic.completedWithReason Clinic.booked eq_refl)
    as (a & a' & _ & Hstored & Hst & Hwhy & Hby & Hat).
  exists a'. split; [exact Hstored|].
  destruct (Hinvariant Clinic.completed completed_reachable 0%nat a' Hstored)
    as [Hboth Hreason].
  split; [exact Hboth|]. split; [exact Hreason|]. split; [exact Hst|].
  split; [exact Hwhy|]. split; [exact Hby|exact Hat].
Defined.

(** A status change to "completed" that carries a reason leaves an
    appointment whose three cancellation fields are set although it is not
    cancelled: the fields are not tied to the status. *)
Lemma cancellation_fields_without_cancelled_status :
  ¬ (∀ db, reachable Clinic.localeDate db →
       ∀ id a, appointments db !! id = Some a →
         (cancellationSet a ↔ status a = "cancelled")).
Proof.
  intros Hclaim.
  destruct (Hclaim Clinic.completed completed_reachable 0%nat
              (applyStatus Clinic.admin Clinic.completedWithReason
                 (newAppointment (Clinic.booking "10:00" "10:30"))) eq_refl)
    as [Hset _].
  discriminate Hset. repeat split; simpl; eauto.
Qed.

(** In the other direction, an appointment cancelled through DELETE has no
    cancellationReason. *)
Example cancelled_without_reason :
  ∃ a, appointments Clinic.cancelledByPatient !! 0%nat = Some a
       ∧ status a = "cancelled" ∧ cancellationReason a = None.
Proof. eexists. repeat split; reflexivity. Qed.

(** Local midnight and the last millisecond of 1 June 2024 in IST. *)
Lemma june1_bounds :
  Js.setHours Clinic.IST (Some Clinic.june1) (Some 0) (Some 0) (Some 0) (Some 0)
    = Some 1717180200000
  ∧ Js.setHours Clinic.IST (Some 1717180200000) (Some 23) (Some 59) (Some 59) (Some 999)
    = Some 1717266599999.
Proof. split; reflexivity. Qed.

Lemma booked_appointments :
  appointments Clinic.booked
  = <[0%nat := newAppointment (Clinic.booking "10:00" "10:30")]> ∅.
Proof. reflexivity. Qed.

(** Scenario B: after the booking at 10:00-10:30 the 10:00 slot is not
    offered and the 10:30 slot is. *)
Lemma availability_matches_interval_test_witness :
  ∃ slots,
    data (availability Clinic.IST Clinic.isoString Clinic.admin Clinic.june1Query
            Clinic.booked).1 = SlotsData slots
    ∧ ¬ (∃ s, s ∈ slots ∧ time s = "10:00" ∧ available s = true)
    ∧ (∃ s, s ∈ slots ∧ time s = "10:30" ∧ available s = true).
Proof.
  destruct (availability_matches_interval_test Clinic.IST Clinic.isoString Clinic.admin
              2%nat Clinic.june1 1717180200000 1717266599999 Clinic.booked
              {| practitionerUserId := 8%nat |} eq_refl eq_refl eq_refl eq_refl eq_refl)
    as (_ & Hclock & slots & Hrun & Hspec).
  assert (Hgrid : 10 ≤ 10 < 18) by lia.
  exists slots. split; [unfold Clinic.june1Query; by rewrite Hrun|]. split.
  - intros Hoffered.
    apply (proj1 (Hspec 10 0 Hgrid (or_introl eq_refl)) Hoffered
             0%nat (newAppointment (Clinic.booking "10:00" "10:30"))
             (1717180200000 + 10 * 3600000 + 0 * 60000)
             (1717180200000 + 10 * 3600000 + 30 * 60000)
             eq_refl eq_refl);
      [by vm_compute|by left
      |apply (Hclock 10 0); lia|apply (Hclock 10 30); lia|].
    split; lia.
  - apply (proj2 (Hspec 10 30 Hgrid (or_intror eq_refl))).
    intros id a apptStart apptEnd Ha _ _ _ Hs He [Hlt _].
    rewrite booked_appointments in Ha.
    apply lookup_insert_Some in Ha as [[_ <-]|[_ Ha]]; [|by rewrite lookup_empty in Ha].
    vm_compute in He. injection He as <-. lia.
Defined.

Lemma availability_lists_open_slots_witness :
  ∃ kept,
    data (availability Clinic.IST Clinic.isoString Clinic.admin Clinic.june1Query
            Clinic.booked).1
    = SlotsData ((λ s, slotAt Clinic.isoString 1717266599999 s.1 s.2) <$> kept)
    ∧ kept `sublist_of` grid
    ∧ StronglySorted (λ s s', minuteOfDay s < minuteOfDay s') kept.
Proof.
  destruct (availability_lists_open_slots Clinic.IST Clinic.isoString Clinic.admin
              2%nat Clinic.june1 1717180200000 1717266599999 Clinic.booked
              {| practitionerUserId := 8%nat |} eq_refl eq_refl eq_refl eq_refl eq_refl)
    as (kept & Hrun & Hsub & _ & Hsorted & _).
  exists kept. split; [unfold Clinic.june1Query; by rewrite Hrun|]. by split.
Defined.

(** After the booking at 10:00-10:30 the answer has 15 entries, all of them
    tagged available, and none for 10:00: the slot that is taken is not
    listed as unavailable, it is absent. *)
Lemma availability_omits_taken_slot :
  ∃ slots,
    data (availability Clinic.IST Clinic.isoString Clinic.admin Clinic.june1Query
            Clinic.booked).1 = SlotsData slots
    ∧ length slots = 15%nat
    ∧ ("10:00" ∉ (time <$> slots))
    ∧ Forall (λ s, available s = true) slots.
Proof.
  eexists. split; [by vm_compute|]. split; [reflexivity|]. split.
  - simpl. rewrite !not_elem_of_cons. repeat (split; [discriminate|]). apply not_elem_of_nil.
  - by repeat constructor.
Qed.

(** The patient holds 500: paying 200 goes through and stores 300; paying
    900 is refused and changes nothing. *)
Lemma deduct_never_overdraws_witness :
  deduct Clinic.patientUser (Clinic.pay 200) Clinic.empty
  = ({| code := 200; success := true;
        message := Some "Amount deducted successfully";
        data := WalletData (Js.ofZ 300) (Js.ofZ 200) "session" |},
     withUsers <[7%nat := {| walletBalance := Some (Js.ofZ 300) |}]> Clinic.empty)
  ∧ SFleb (Js.ofZ 0) (Js.ofZ 300) = true
  ∧ deduct Clinic.patientUser (Clinic.pay 900) Clinic.empty
    = ({| code := 400; success := false;
          message := Some "Insufficient wallet balance"; data := NoData |}, Clinic.empty).
Proof.
  destruct (deduct_never_overdraws Clinic.patientUser (Clinic.pay 200) Clinic.empty
              {| walletBalance := Some (Js.ofZ 500) |}
              eq_refl eq_refl eq_refl eq_refl eq_refl)
    as (_ & _ & Hpaid).
  destruct (deduct_never_overdraws Clinic.patientUser (Clinic.pay 900) Clinic.empty
              {| walletBalance := Some (Js.ofZ 500) |}
              eq_refl eq_refl eq_refl eq_refl eq_refl)
    as (_ & Hrefused & _).
  destruct Hpaid as [Hrun Hsign];
    [by repeat split|reflexivity|].
  split; [exact Hrun|]. split; [exact Hsign|].
  apply Hrefused; [by repeat split|reflexivity].
Defined.

(** Half a rupee is within the patient's balance of 500 and yet is not
    paid out: the request is answered "Validation errors".  And paying 1
    out of a balance of ten thousand million million is answered 200 with
    the stored balance what it was, since the exact difference is not a
    binary64 number. *)
Lemma deduct_refuses_small_amount :
  SFltb (Js.ofZ 500) (Js.scaled 1 (-1)) = false
  ∧ deduct Clinic.patientUser Clinic.payHalf Clinic.empty
    = ({| code := 400; success := false; message := Some "Validation errors";
          data := ValidationErrors ["amount"] |}, Clinic.empty)
  ∧ deduct Clinic.patientUser (Clinic.pay 1) Clinic.wealthy
    = ({| code := 200; success := true;
          message := Some "Amount deducted successfully";
          data := WalletData (Js.ofZ 10000000000000000) (Js.ofZ 1) "session" |},
       Clinic.wealthy).
Proof. by vm_compute. Qed.

(** *** The JavaScript primitives on small inputs *)

Example parseInt_decimal : Js.parseInt "10" = Some 10.
Proof. reflexivity. Qed.

Example parseInt_prefix : Js.parseInt " 09x" = Some 9.
Proof. reflexivity. Qed.

Example parseInt_hex : Js.parseInt "0x1f" = Some 31.
Proof. reflexivity. Qed.

Example parseInt_negative : Js.parseInt "-7" = Some (-7).
Proof. reflexivity. Qed.

Example parseInt_NaN : Js.parseInt "am" = None.
Proof. reflexivity. Qed.

Example split_time : Js.split ":" "10:30" = ["10"; "30"].
Proof. reflexivity. Qed.

Example split_no_separator : Js.split ":" "1030" = ["1030"].
Proof. reflexivity. Qed.

Example padStart_hour : Js.padStart 2 "0" (Js.toString 9) = "09".
Proof. reflexivity. Qed.

Example hours_loop : Js.forLoop startHour endHour 1 = [10; 11; 12; 13; 14; 15; 16; 17].
Proof. reflexivity. Qed.

Example minutes_loop : Js.forLoop 0 60 slotDuration = [0; 30].
Proof. reflexivity. Qed.

(** 10:00 IST on 1 June 2024, from the last millisecond of that day. *)
Example timeOnDay_ten : timeOnDay Clinic.IST (Some 1717266599999) "10:00" = Some 1717216200000.
Proof. reflexivity. Qed.

(** A start time without minutes gives an Invalid Date, which no
    comparison finds in conflict. *)
Example timeOnDay_malformed : timeOnDay Clinic.IST (Some 1717266599999) "10" = None.
Proof. reflexivity. Qed.

(** * Further properties of the appointment routes *)

Ltac unfold_monad :=
  unfold route, await, tryCatch, insertAppointment, insertNotification, saveAppointment;
  unfold reply, throw, gets, modify;
  unfold mbind, mret, Handler_bind, Handler_ret.

Ltac unfold_routes :=
  unfold createAppointment, createAppointmentBody, updateAppointment, updateAppointmentBody,
    updateStatus, updateStatusBody, cancelAppointment, cancelAppointmentBody, accessDenied;
  unfold_monad.

Ltac split_cases := repeat (case_match; simpl in *; simplify_eq; try done).

Section Bookings.

Set Default Proof Using "Type".

Variable toLocaleDateString : Z → string.

(** What a 201 answer tells about the request and the store. *)
Lemma createAppointment_201_inv c b db :
  code (createAppointment toLocaleDateString c b db).1 = 201 →
  validateCreate b = []
  ∧ is_Some (patients db !! CreateBody.patientId b)
  ∧ is_Some (practitioners db !! CreateBody.practitionerId b)
  ∧ patients (createAppointment toLocaleDateString c b db).2 = patients db
  ∧ practitioners (createAppointment toLocaleDateString c b db).2 = practitioners db
  ∧ users (createAppointment toLocaleDateString c b db).2 = users db.
Proof.
  unfold_routes. split_cases; try intros _; repeat split; try done;
    match goal with H : negb (bool_decide _) = false |- _ =>
      by apply negb_false_iff, bool_decide_eq_true in H end.
Qed.

(** X1. A booking that is refused with a 400 or a 404 answer (validation,
    unknown patient or practitioner, slot taken) leaves every collection of
    the store as it was. *)
Theorem refused_booking_changes_nothing c b db :
  code (createAppointment toLocaleDateString c b db).1 = 400
  ∨ code (createAppointment toLocaleDateString c b db).1 = 404 →
  (createAppointment toLocaleDateString c b db).2 = db.
Proof.
  unfold_routes. split_cases; intros [|]; done.
Qed.

(** X2. Validation comes before any access to the store: a request with a
    failing field is answered 400 with the list of the failing fields and
    nothing is read or written, even when every store call would throw. *)
Theorem invalid_booking_never_reaches_store c b db :
  validateCreate b ≠ [] →
  createAppointment toLocaleDateString c b db = (validationFailure (validateCreate b), db).
Proof.
  intros Hbad. unfold createAppointment, createAppointmentBody, route.
  by rewrite bool_decide_eq_false_2.
Qed.

(** X3. An unknown patient or practitioner is reported before the conflict
    guard is consulted: the valid booking is answered 404 and the store is
    unchanged, whether or not the slot is taken. *)
Theorem not_found_before_conflict c b db :
  validateCreate b = [] →
  fails c PatientFindById = false →
  fails c PractitionerFindById = false →
  patients db !! CreateBody.patientId b = None
  ∨ practitioners db !! CreateBody.practitionerId b = None →
  code (createAppointment toLocaleDateString c b db).1 = 404
  ∧ (createAppointment toLocaleDateString c b db).1 ≠ slotConflict
  ∧ (createAppointment toLocaleDateString c b db).2 = db.
Proof.
  intros Hv F1 F2 Hmissing. unfold createAppointment, createAppointmentBody.
  rewrite Hv. simpl. unfold_monad. rewrite F1, F2.
  destruct (patients db !! CreateBody.patientId b) as [p|]; [|done].
  destruct Hmissing as [|Hq]; [done|]. by rewrite Hq.
Qed.

(** X4. An accepted booking is stored under an id that was not in use: the
    appointment collection grows by exactly this one document and every
    appointment that was there is still there, unchanged. *)
Theorem booking_is_stored_fresh c b db :
  code (createAppointment toLocaleDateString c b db).1 = 201 →
  ∃ id,
    appointments db !! id = None
    ∧ (createAppointment toLocaleDateString c b db).1 = created id (newAppointment b)
    ∧ appointments (createAppointment toLocaleDateString c b db).2 !! id
      = Some (newAppointment b)
    ∧ size (appointments (createAppointment toLocaleDateString c b db).2)
      = S (size (appointments db))
    ∧ ∀ other a, appointments db !! other = Some a →
        appointments (createAppointment toLocaleDateString c b db).2 !! other = Some a.
Proof.
  intros Hok. apply createAppointment_201 in Hok as [Hr Hdb].
  assert (Hfresh : appointments db !! newId (appointments db) = None)
    by apply not_elem_of_dom, is_fresh.
  exists (newId (appointments db)). rewrite Hr, Hdb.
  split; [done|]. split; [done|]. split; [apply lookup_insert_eq|].
  split; [by apply map_size_insert_None|].
  intros other a Ha. rewrite lookup_insert_ne; [done|]. intros <-. congruence.
Qed.

(** X5. Once a booking has been accepted, any further valid booking for the
    same practitioner, the same scheduledDate and the same startTime string
    is refused with "Time slot is already booked", whoever asks and whatever
    its other fields are, and the store is left as the first booking made
    it. *)
Theorem second_booking_refused c b db c' b' p' :
  code (createAppointment toLocaleDateString c b db).1 = 201 →
  validateCreate b' = [] →
  patients db !! CreateBody.patientId b' = Some p' →
  CreateBody.practitionerId b' = CreateBody.practitionerId b →
  CreateBody.scheduledDate b' = CreateBody.scheduledDate b →
  CreateBody.startTime b' = CreateBody.startTime b →
  fails c' PatientFindById = false →
  fails c' PractitionerFindById = false →
  fails c' AppointmentFindOne = false →
  createAppointment toLocaleDateString c' b'
    (createAppointment toLocaleDateString c b db).2
  = (slotConflict, (createAppointment toLocaleDateString c b db).2).
Proof.
  intros Hok Hv' Hp' Epr Ed Es F1 F2 F3.
  destruct (createAppointment_201_inv c b db Hok) as (_ & _ & [q Hq] & Hpat & Hpra & _).
  apply createAppointment_201 in Hok as [_ Hdb].
  set (db1 := (createAppointment toLocaleDateString c b db).2) in *.
  destruct (findOne (slotTaken (CreateBody.practitionerId b') (CreateBody.scheduledDate b')
                       (CreateBody.startTime b')) (appointments db1)) as [x|] eqn:Hfind.
  - apply (createAppointment_taken toLocaleDateString c' b' db1 p' q x); try done.
    + by rewrite Hpat.
    + by rewrite Hpra, Epr.
  - exfalso. apply (proj1 (findOne_None _ _) Hfind (newId (appointments db)) (newAppointment b)).
    + rewrite Hdb. apply lookup_insert_eq.
    + apply slotTaken_spec. simpl. repeat split; try done. by left.
Qed.

Lemma guard_answer c b db p q :
  validateCreate b = [] →
  patients db !! CreateBody.patientId b = Some p →
  practitioners db !! CreateBody.practitionerId b = Some q →
  fails c PatientFindById = false →
  fails c PractitionerFindById = false →
  fails c AppointmentFindOne = false →
  (createAppointment toLocaleDateString c b db).1 = slotConflict
  ↔ is_Some (findOne (slotTaken (CreateBody.practitionerId b) (CreateBody.scheduledDate b)
                                (CreateBody.startTime b)) (appointments db)).
Proof.
  intros Hv Hp Hq F1 F2 F3.
  destruct (findOne _ (appointments db)) as [x|] eqn:Hfind.
  - rewrite (createAppointment_taken toLocaleDateString c b db p q x) by done.
    split; [by eexists|done].
  - rewrite (createAppointment_past_guard toLocaleDateString c b db p q) by done.
    split; [|by intros []%is_Some_None].
    destruct (fails c AppointmentSave); [done|].
    destruct (fails c NotificationSave); [done|].
    destruct (fails c AppointmentPopulate); done.
Qed.

(** X6. Cancelling an appointment takes it out of the conflict guard: after
    a successful DELETE of appointment [id], a valid booking is refused with
    "Time slot is already booked" exactly when some other appointment of the
    store is active on the same practitioner, scheduledDate and startTime. *)
Theorem cancelled_appointment_frees_its_slot c id db a c' b p q :
  appointments db !! id = Some a →
  permitted c db a →
  fails c AppointmentFindById = false →
  fails c PatientFindOne = false →
  fails c AppointmentSave = false →
  validateCreate b = [] →
  patients db !! CreateBody.patientId b = Some p →
  practitioners db !! CreateBody.practitionerId b = Some q →
  fails c' PatientFindById = false →
  fails c' PractitionerFindById = false →
  fails c' AppointmentFindOne = false →
  (createAppointment toLocaleDateString c' b (cancelAppointment c id db).2).1 = slotConflict
  ↔ ∃ other a', other ≠ id ∧ appointments db !! other = Some a'
                ∧ sameSlot b a' ∧ isActive a'.
Proof.
  intros Ha Hperm G1 G2 G3 Hv Hp Hq F1 F2 F3.
  rewrite (cancelAppointment_run c id db a) by done. simpl.
  rewrite (guard_answer c' b _ p q) by done. simpl.
  rewrite findOne_is_Some. unfold sameSlot. split.
  - intros (other & a' & Hm & Ht). apply slotTaken_spec in Ht.
    apply lookup_insert_Some in Hm as [[_ <-]|[Hne Hm]].
    + destruct Ht as (_ & _ & _ & [Hs|Hs]); discriminate Hs.
    + exists other, a'. destruct Ht as (? & ? & ? & ?). repeat split; done.
  - intros (other & a' & Hne & Hm & (Hpr & Hd & Hs) & Hact).
    exists other, a'. split; [by rewrite lookup_insert_ne|]. by apply slotTaken_spec.
Qed.

End Bookings.

Section LifeCycle.

Set Default Proof Using "Type".


(** X8. A request for an appointment id that is not in the store is
    answered 404 "Appointment not found" by the update, the status and the
    cancel route alike, and nothing is written. *)
Theorem missing_appointment_is_not_found c id ub sb db :
  appointments db !! id = None →
  validateStatus sb = [] →
  fails c AppointmentFindById = false →
  updateAppointment c id ub db = (failure 404 "Appointment not found", db)
  ∧ updateStatus c id sb db = (failure 404 "Appointment not found", db)
  ∧ cancelAppointment c id db = (failure 404 "Appointment not found", db).
Proof.
  intros Ha Hv F1. unfold_routes. rewrite Hv, F1. simpl. by rewrite !Ha.
Qed.

(** X9. A status outside the six values, or an empty cancellation reason,
    is refused with 400 and the failing fields before the appointment is
    even looked up: nothing is written, and the answer is 400 also for an
    id that does not exist. *)
Theorem invalid_status_is_rejected c id b db :
  StatusBody.status b ∉ statusValues ∨ StatusBody.cancellationReason b = Some "" →
  validateStatus b ≠ []
  ∧ updateStatus c id b db = (validationFailure (validateStatus b), db).
Proof.
  intros Hbad.
  assert (Hne : validateStatus b ≠ []).
  { unfold validateStatus. destruct Hbad as [Hst|Hr].
    - by rewrite bool_decide_eq_false_2.
    - rewrite Hr. simpl. by destruct (bool_decide _). }
  split; [done|]. unfold updateStatus, updateStatusBody, route.
  by rewrite bool_decide_eq_false_2.
Qed.

(** X10. The four mutating appointment routes never write to the patient,
    practitioner or user collections, whatever the request and whatever
    fails; and the update and cancel routes write no notification either:
    cancelling through DELETE notifies nobody. *)
Theorem appointment_routes_write_frame c id cb ub sb db (toLocaleDateString : Z → string) :
  (patients (createAppointment toLocaleDateString c cb db).2 = patients db
   ∧ practitioners (createAppointment toLocaleDateString c cb db).2 = practitioners db
   ∧ users (createAppointment toLocaleDateString c cb db).2 = users db)
  ∧ (patients (updateStatus c id sb db).2 = patients db
     ∧ practitioners (updateStatus c id sb db).2 = practitioners db
     ∧ users (updateStatus c id sb db).2 = users db)
  ∧ (patients (updateAppointment c id ub db).2 = patients db
     ∧ practitioners (updateAppointment c id ub db).2 = practitioners db
     ∧ users (updateAppointment c id ub db).2 = users db
     ∧ notifications (updateAppointment c id ub db).2 = notifications db)
  ∧ (patients (cancelAppointment c id db).2 = patients db
     ∧ practitioners (cancelAppointment c id db).2 = practitioners db
     ∧ users (cancelAppointment c id db).2 = users db
     ∧ notifications (cancelAppointment c id db).2 = notifications db).
Proof.
  repeat split; unfold_routes; split_cases.
Qed.

(** X11. A status change that is answered 200 stores exactly one new
    notification, under an id that was not in use: it is addressed to the id
    held in the appointment's patient field and carries the new status in
    its title, message and data; the notifications that were there stay. *)
Theorem status_change_adds_one_notification c id b db :
  code (updateStatus c id b db).1 = 200 →
  ∃ a nid,
    appointments db !! id = Some a
    ∧ notifications db !! nid = None
    ∧ notifications (updateStatus c id b db).2
      = <[nid := {| recipient := patient a;
                    n_type := "appointment_confirmation";
                    title := "Appointment " +:+ StatusBody.status b;
                    n_message := "Your appointment has been " +:+ StatusBody.status b;
                    priority := "medium";
                    channels := ["email"; "in-app"];
                    n_data := StatusData id (StatusBody.status b) |}]> (notifications db)
    ∧ size (notifications (updateStatus c id b db).2) = S (size (notifications db)).
Proof.
  assert (Hfresh : notifications db !! newId (notifications db) = None)
    by apply not_elem_of_dom, is_fresh.
  unfold_routes. split_cases. intros _.
  eexists _, (newId (notifications _)). split; [done|]. split; [done|]. split; [done|].
  by apply map_size_insert_None.
Qed.

End LifeCycle.
(** ** Worked examples for the further properties *)

Lemma refused_booking_changes_nothing_witness :
  code (createAppointment Clinic.localeDate Clinic.admin
          (Clinic.booking "10:00" "10:30") Clinic.booked).1 = 400
  ∧ (createAppointment Clinic.localeDate Clinic.admin
       (Clinic.booking "10:00" "10:30") Clinic.booked).2 = Clinic.booked.
Proof.
  split; [reflexivity|].
  apply (refused_booking_changes_nothing Clinic.localeDate Clinic.admin
           (Clinic.booking "10:00" "10:30") Clinic.booked).
  left. reflexivity.
Defined.

Lemma invalid_booking_never_reaches_store_witness :
  validateCreate Ward.tooShort = ["duration"]
  ∧ createAppointment Clinic.localeDate Ward.storeDown Ward.tooShort Clinic.empty
    = (validationFailure ["duration"], Clinic.empty).
Proof.
  split; [reflexivity|].
  apply (invalid_booking_never_reaches_store Clinic.localeDate Ward.storeDown
           Ward.tooShort Clinic.empty).
  discriminate.
Defined.

(** The slot at 10:00 is taken, and still the unknown patient is what is
    reported. *)
Lemma not_found_before_conflict_witness :
  code (createAppointment Clinic.localeDate Clinic.admin Ward.forNobody Clinic.booked).1 = 404
  ∧ (createAppointment Clinic.localeDate Clinic.admin Ward.forNobody Clinic.booked).1
    ≠ slotConflict
  ∧ (createAppointment Clinic.localeDate Clinic.admin Ward.forNobody Clinic.booked).2
    = Clinic.booked.
Proof.
  apply (not_found_before_conflict Clinic.localeDate Clinic.admin Ward.forNobody
           Clinic.booked eq_refl eq_refl eq_refl).
  left. reflexivity.
Defined.

Lemma booking_is_stored_fresh_witness :
  ∃ id,
    appointments Clinic.booked !! id = None
    ∧ appointments Clinic.bookedTwice !! id
      = Some (newAppointment (Clinic.booking "11:00" "11:30"))
    ∧ size (appointments Clinic.bookedTwice) = S (size (appointments Clinic.booked)).
Proof.
  destruct (booking_is_stored_fresh Clinic.localeDate Clinic.admin
              (Clinic.booking "11:00" "11:30") Clinic.booked eq_refl)
    as (id & Hfree & _ & Hstored & Hsize & _).
  exists id. split; [exact Hfree|]. split; [exact Hstored|exact Hsize].
Defined.

Lemma second_booking_refused_witness :
  createAppointment Clinic.localeDate Clinic.patientUser Ward.sameStart Clinic.booked
  = (slotConflict, Clinic.booked).
Proof.
  apply (second_booking_refused Clinic.localeDate Clinic.admin
           (Clinic.booking "10:00" "10:30") Clinic.empty Clinic.patientUser Ward.sameStart
           {| userId := 7%nat |}); reflexivity.
Defined.

(** After the patient cancelled the only appointment, the 10:00 slot can be
    booked again. *)
Lemma cancelled_appointment_frees_its_slot_witness :
  (createAppointment Clinic.localeDate Clinic.admin (Clinic.booking "10:00" "10:30")
     Clinic.cancelledByPatient).1 ≠ slotConflict.
Proof.
  assert (Hperm : permitted Clinic.patientUser Clinic.booked
                    (newAppointment (Clinic.booking "10:00" "10:30")))
    by (intros _; by eexists).
  intros Hrefused.
  apply (cancelled_appointment_frees_its_slot Clinic.localeDate Clinic.patientUser 0%nat
           Clinic.booked (newAppointment (Clinic.booking "10:00" "10:30"))
           Clinic.admin (Clinic.booking "10:00" "10:30")
           {| userId := 7%nat |} {| practitionerUserId := 8%nat |}
           eq_refl Hperm eq_refl eq_refl eq_refl eq_refl eq_refl eq_refl
           eq_refl eq_refl eq_refl) in Hrefused.
  destruct Hrefused as (other & a' & Hne & Hm & _).
  rewrite booked_appointments in Hm.
  apply lookup_insert_Some in Hm as [[Heq _]|[_ Hm]]; [by apply Hne|].
  by rewrite lookup_empty in Hm.
Defined.


Lemma missing_appointment_is_not_found_witness :
  updateAppointment Clinic.admin 3%nat (Clinic.moveTo "12:00" "12:30") Clinic.booked
  = (failure 404 "Appointment not found", Clinic.booked)
  ∧ updateStatus Clinic.admin 3%nat (Ward.setStatus "confirmed") Clinic.booked
    = (failure 404 "Appointment not found", Clinic.booked)
  ∧ cancelAppointment Clinic.admin 3%nat Clinic.booked
    = (failure 404 "Appointment not found", Clinic.booked).
Proof.
  apply (missing_appointment_is_not_found Clinic.admin 3%nat (Clinic.moveTo "12:00" "12:30")
           (Ward.setStatus "confirmed") Clinic.booked); reflexivity.
Defined.

Lemma invalid_status_is_rejected_witness :
  updateStatus Clinic.admin 0%nat (Ward.setStatus "done") Clinic.booked
  = (validationFailure ["status"], Clinic.booked).
Proof.
  apply (invalid_status_is_rejected Clinic.admin 0%nat (Ward.setStatus "done") Clinic.booked).
  left. unfold statusValues. simpl. rewrite !not_elem_of_cons.
  repeat (split; [discriminate|]). apply not_elem_of_nil.
Defined.

Lemma status_change_adds_one_notification_witness :
  size (notifications Clinic.completed) = S (size (notifications Clinic.booked)).
Proof.
  destruct (status_change_adds_one_notification Clinic.admin 0%nat
              Clinic.completedWithReason Clinic.booked eq_refl)
    as (a & nid & _ & _ & _ & Hsize).
  exact Hsize.
Defined.

(** * Further properties of the availability route *)

Section Slots.

Set Default Proof Using "Type".

Variable LocalTZA : Z.
Variable toISOString : Z → string.

Lemma slotStep_keeps_store selectedDate existing hour minutes acc db :
  (slotStep LocalTZA toISOString selectedDate existing hour minutes acc db).2 = db.
Proof. unfold slotStep. by repeat case_match. Qed.

Lemma forEach_keeps_store {A S} (l : list A) (body : A → S → Handler S) :
  (∀ x s db, (body x s db).2 = db) →
  ∀ s db, (forEach l body s db).2 = db.
Proof.
  intros Hbody. induction l as [|x l IH]; intros s db; [done|]. simpl.
  unfold mbind, Handler_bind. specialize (Hbody x s db).
  destruct (body x s db) as [[s'|r|e] db1]; simpl in *; subst; [apply IH|done|done].
Qed.

(** X12. The availability route only reads: whatever the query, the store
    and the faults, the store after the request is the store before it. *)
Theorem availability_only_reads c q db :
  (availability LocalTZA toISOString c q db).2 = db.
Proof.
  unfold availability, availabilityBody, route.
  assert (Hloop : ∀ sel existing acc db',
            (forEach (Js.forLoop startHour endHour 1)
               (λ hour, forEach (Js.forLoop 0 60 slotDuration)
                          (λ minutes, slotStep LocalTZA toISOString sel existing hour minutes))
               acc db').2 = db').
  { intros sel existing. apply forEach_keeps_store. intros hour.
    apply forEach_keeps_store. intros minutes. apply slotStep_keeps_store. }
  destruct (AvailabilityQuery.practitionerId q) as [pid|]; [|done].
  destruct (AvailabilityQuery.date q) as [| |t]; [done| |].
  all: unfold await, findBooked, gets, throw, reply, mbind, Handler_bind;
    destruct (fails c PractitionerFindById); [done|];
    destruct (practitioners db !! pid); [|done];
    destruct (fails c AppointmentFind); [done|].
  - done.
  - destruct (Js.setHours LocalTZA (Some t) _ _ _ _) as [lo|]; [|done].
    destruct (Js.setHours LocalTZA (Some lo) _ _ _ _) as [hi|]; [|done].
    specialize (Hloop (Some hi) (find (bookedOn pid lo hi) (appointments db)).*2 [] db).
    destruct (forEach _ _ _ _) as [[slots|r|e] db1]; by simpl in *.
Qed.

(** X13. A query without a practitioner id or without a date is answered
    400 before the store is touched, also when every store call would
    throw. *)
Theorem availability_needs_both_parameters c q db :
  AvailabilityQuery.practitionerId q = None
  ∨ AvailabilityQuery.date q = AvailabilityQuery.Missing →
  availability LocalTZA toISOString c q db
  = (failure 400 "Practitioner ID and date are required", db).
Proof.
  intros Hmissing. unfold availability, availabilityBody, route.
  destruct (AvailabilityQuery.practitionerId q) as [pid|]; [|done].
  destruct Hmissing as [|Hdate]; [done|]. by rewrite Hdate.
Qed.

(** X14. The practitioner is looked up before the date is: for an unknown
    practitioner the answer is 404, also when the date does not parse. *)
Theorem availability_unknown_practitioner c q pid db :
  AvailabilityQuery.practitionerId q = Some pid →
  AvailabilityQuery.date q ≠ AvailabilityQuery.Missing →
  practitioners db !! pid = None →
  fails c PractitionerFindById = false →
  availability LocalTZA toISOString c q db = (failure 404 "Practitioner not found", db).
Proof.
  intros Hpid Hdate Hnone F. unfold availability, availabilityBody, route, await.
  rewrite Hpid, F. unfold gets, mbind, Handler_bind.
  destruct (AvailabilityQuery.date q); [done|by rewrite Hnone..].
Qed.

(** X15. A date that does not parse is not a client error for this route:
    for a practitioner that exists the request ends in the catch block
    and is answered 500. *)
Theorem availability_invalid_date_is_500 c q pid p db :
  AvailabilityQuery.practitionerId q = Some pid →
  AvailabilityQuery.date q = AvailabilityQuery.Invalid →
  practitioners db !! pid = Some p →
  fails c PractitionerFindById = false →
  ∃ e, availability LocalTZA toISOString c q db
       = (serverError "Server error fetching availability" e, db).
Proof.
  intros Hpid Hdate Hp F. unfold availability, availabilityBody, route, await.
  rewrite Hpid, Hdate, F. unfold gets, mbind, Handler_bind. rewrite Hp.
  destruct (fails c AppointmentFind); by eexists.
Qed.



(** X17. Cancelling never hides a slot: every slot that the availability
    route lists before a successful DELETE of an appointment is listed
    after it as well. *)
Theorem cancelling_keeps_slots_open c pid t lo hi db q c' id a slot :
  practitioners db !! pid = Some q →
  fails c PractitionerFindById = false →
  fails c AppointmentFind = false →
  Js.setHours LocalTZA (Some t) (Some 0) (Some 0) (Some 0) (Some 0) = Some lo →
  Js.setHours LocalTZA (Some lo) (Some 23) (Some 59) (Some 59) (Some 999) = Some hi →
  appointments db !! id = Some a →
  permitted c' db a →
  fails c' AppointmentFindById = false →
  fails c' PatientFindOne = false →
  fails c' AppointmentSave = false →
  ∃ before after,
    (availability LocalTZA toISOString c
       {| AvailabilityQuery.practitionerId := Some pid;
          AvailabilityQuery.date := AvailabilityQuery.Instant t |} db).1
    = {| code := 200; success := true; message := None; data := SlotsData before |}
    ∧ (availability LocalTZA toISOString c
         {| AvailabilityQuery.practitionerId := Some pid;
            AvailabilityQuery.date := AvailabilityQuery.Instant t |}
         (cancelAppointment c' id db).2).1
      = {| code := 200; success := true; message := None; data := SlotsData after |}
    ∧ (slot ∈ before → slot ∈ after).
Proof.
  intros Hq F1 F2 Hlo Hhi Ha Hperm G1 G2 G3.
  rewrite (cancelAppointment_run c' id db a) by done. simpl.
  rewrite (availability_run LocalTZA toISOString c pid t lo hi db q) by done.
  rewrite (availability_run LocalTZA toISOString c pid t lo hi _ q) by done.
  eexists _, _. split; [done|]. split; [done|].
  rewrite !list_elem_of_fmap. intros (s & -> & Hs). exists s. split; [done|].
  unfold keptSlots in *. apply list_elem_of_filter in Hs as [Hfree Hs].
  apply list_elem_of_filter. split; [|done].
  apply not_true_iff_false. apply not_true_iff_false in Hfree.
  intros Hbusy. apply Hfree. apply hasConflict_overlap in Hbusy as (a' & Hin & Hov).
  apply hasConflict_overlap. exists a'. split; [|done].
  apply elem_of_booked in Hin as (other & Hm & Hp & Hd & Hact). simpl in Hm.
  apply elem_of_booked. exists other.
  apply lookup_insert_Some in Hm as [[_ <-]|[_ Hm]]; [|done].
  destruct Hact as [Hs'|Hs']; discriminate Hs'.
Qed.

End Slots.
(** ** Worked examples for the availability route *)

Lemma availability_needs_both_parameters_witness :
  availability Clinic.IST Clinic.isoString Ward.storeDown Desk.noPractitioner Clinic.booked
  = (failure 400 "Practitioner ID and date are required", Clinic.booked).
Proof.
  apply (availability_needs_both_parameters Clinic.IST Clinic.isoString Ward.storeDown
           Desk.noPractitioner Clinic.booked).
  left. reflexivity.
Defined.

Lemma availability_unknown_practitioner_witness :
  availability Clinic.IST Clinic.isoString Clinic.admin Desk.unknownOnBadDate Clinic.booked
  = (failure 404 "Practitioner not found", Clinic.booked).
Proof.
  apply (availability_unknown_practitioner Clinic.IST Clinic.isoString Clinic.admin
           Desk.unknownOnBadDate 4%nat Clinic.booked);
    [reflexivity|discriminate|reflexivity|reflexivity].
Defined.

Lemma availability_invalid_date_is_500_witness :
  ∃ e, availability Clinic.IST Clinic.isoString Clinic.admin Desk.badDate Clinic.booked
       = (serverError "Server error fetching availability" e, Clinic.booked).
Proof.
  apply (availability_invalid_date_is_500 Clinic.IST Clinic.isoString Clinic.admin
           Desk.badDate 2%nat {| practitionerUserId := 8%nat |} Clinic.booked);
    reflexivity.
Defined.



Lemma cancelling_keeps_slots_open_witness :
  ∃ before after,
    (availability Clinic.IST Clinic.isoString Clinic.admin Clinic.june1Query Clinic.booked).1
    = {| code := 200; success := true; message := None; data := SlotsData before |}
    ∧ (availability Clinic.IST Clinic.isoString Clinic.admin Clinic.june1Query
         Clinic.cancelledByPatient).1
      = {| code := 200; success := true; message := None; data := SlotsData after |}
    ∧ (slotAt Clinic.isoString 1717266599999 10 30 ∈ before
       → slotAt Clinic.isoString 1717266599999 10 30 ∈ after).
Proof.
  assert (Hperm : permitted Clinic.patientUser Clinic.booked
                    (newAppointment (Clinic.booking "10:00" "10:30")))
    by (intros _; by eexists).
  exact (cancelling_keeps_slots_open Clinic.IST Clinic.isoString Clinic.admin 2%nat
           Clinic.june1 1717180200000 1717266599999 Clinic.booked
           {| practitionerUserId := 8%nat |} Clinic.patientUser 0%nat
           (newAppointment (Clinic.booking "10:00" "10:30"))
           (slotAt Clinic.isoString 1717266599999 10 30)
           eq_refl eq_refl eq_refl eq_refl eq_refl eq_refl Hperm eq_refl eq_refl eq_refl).
Defined.

(** ** The wallet route under faults *)

(** X19. A valid deduction for a user that is not in the store is
    answered 404 "User not found" and writes nothing: no balance is
    created for an unknown user. *)
Theorem deduct_unknown_user c b db :
  validateDeduct b = [] →
  fails c UserFindById = false →
  users db !! user c = None →
  deduct c b db = (failure 404 "User not found", db).
Proof.
  intros Hv F Hu. unfold deduct, deductBody. rewrite Hv. simpl.
  unfold_monad. by rewrite F, Hu.
Qed.

(** X20. The balance is written only together with the answer 200: after
    any other answer (validation errors, unknown user, insufficient
    balance, or a store call that throws and is answered 500) the store is
    what it was. *)
Theorem deduct_fails_without_writing c b db :
  code (deduct c b db).1 ≠ 200 → (deduct c b db).2 = db.
Proof.
  unfold deduct, deductBody. unfold_monad.
  repeat (case_match; simpl in *; simplify_eq; try done).
Qed.

(** X21. A deduction writes nothing but the caller's own user document:
    patients, practitioners, appointments and notifications are as they
    were, and so is every other user, whatever the request and whatever
    fails. *)
Theorem deduct_write_frame c b db :
  patients (deduct c b db).2 = patients db
  ∧ practitioners (deduct c b db).2 = practitioners db
  ∧ appointments (deduct c b db).2 = appointments db
  ∧ notifications (deduct c b db).2 = notifications db
  ∧ ∀ other, other ≠ user c → users (deduct c b db).2 !! other = users db !! other.
Proof.
  unfold deduct, deductBody. unfold_monad.
  repeat (case_match; simpl in *; simplify_eq; try done).
  repeat split. intros other Hne. by rewrite lookup_insert_ne.
Qed.

(** Paying 200 out of 500 leaves a balance that is not below zero. *)
Lemma deduct_balance_sound_witness :
  users (deduct Clinic.patientUser (Clinic.pay 200) Clinic.empty).2 = users Clinic.empty
  ∨ ∃ x, users (deduct Clinic.patientUser (Clinic.pay 200) Clinic.empty).2
         = <[7%nat := {| walletBalance := Some x |}]> (users Clinic.empty)
         ∧ SFleb (S754_zero false) x = true.
Proof.
  exact (deduct_balance_sound Clinic.patientUser (Clinic.pay 200) Clinic.empty
           eq_refl eq_refl).
Defined.

(** The administrator has no user document. *)
Lemma deduct_unknown_user_witness :
  deduct Clinic.admin (Clinic.pay 200) Clinic.empty
  = (failure 404 "User not found", Clinic.empty).
Proof.
  exact (deduct_unknown_user Clinic.admin (Clinic.pay 200) Clinic.empty
           eq_refl eq_refl eq_refl).
Defined.

(** The write of the new balance throws: the answer is 500 and the 500
    rupees are still there. *)
Lemma deduct_fails_without_writing_witness :
  code (deduct Till.saveDown (Clinic.pay 200) Clinic.empty).1 = 500
  ∧ (deduct Till.saveDown (Clinic.pay 200) Clinic.empty).2 = Clinic.empty.
Proof.
  split; [reflexivity|].
  apply (deduct_fails_without_writing Till.saveDown (Clinic.pay 200) Clinic.empty).
  discriminate.
Defined.
